(** * The customer resource client of the openpay package (customer.go)

    A shallow embedding of [customer.go]: the data shapes with their struct
    tags, the way [encoding/json] turns those tags into the members of a
    payload, and the six operations written over the two calls they make on
    the session collaborator ([newRequest] and [perform]). *)

From Stdlib Require Import ZArith Floats Ascii String.
From stdpp Require Import base option list strings.

Open Scope string_scope.
Open Scope list_scope.

(** ** Go values as the encoder sees them *)

Module Go.

(** [time.Time] as an instant in UTC: the calendar year and the nanoseconds
    elapsed in it. The zero value of the type is the start of year 1. *)
Record Time := mkTime { Year : Z; NanosInYear : Z }.

Definition zeroTime : Time := mkTime 1 0.

Definition float64 := PrimFloat.float.

(** A value handed to [json.Marshal], by kind. A struct is the list of its
    fields in declaration order: the Go name of the field, the [json] key of
    its tag as [reflect.StructTag.Get] returns it (empty when the field has no
    tag) and the value. [time.Time] is a kind of its own because it brings its
    own [MarshalJSON]. *)
#[warnings="-register-all"]
Inductive Value :=
| VString (s : string)
| VBool (b : bool)
| VFloat64 (f : float64)
| VTime (t : Time)
| VPtr (p : option Value)
| VStruct (fields : list (string * string * Value)).

(** [fmt.Sprintf] for a format with [%s] verbs and string operands: the text
    of the format is copied and each [%s] is replaced by the next operand as
    it is. An operand is never scanned for verbs. The calls of customer.go
    give one operand for the one verb of their format. *)
Fixpoint Sprintf (format : string) (operands : list string) : string :=
  match format with
  | EmptyString => EmptyString
  | String "%"%char (String "s"%char rest) =>
      match operands with
      | a :: operands' => a +:+ Sprintf rest operands'
      | [] => "%!s(MISSING)" +:+ Sprintf rest []
      end
  | String c rest => String c (Sprintf rest operands)
  end.

End Go.

(** ** The members [encoding/json] writes for a struct *)

Module Json.
Import Go.

(** The encoded document. A number and a time are kept as the value whose
    text the encoder writes. *)
#[warnings="-register-all"]
Inductive json :=
| JNull
| JBool (b : bool)
| JNumber (f : float64)
| JString (s : string)
| JTime (t : Time)
| JObject (members : list (string * json)).

(** [strings.Cut(tag, ",")]: the text before the first comma and the text
    after it. *)
Fixpoint cutComma (tag : string) : string * string :=
  match tag with
  | EmptyString => (EmptyString, EmptyString)
  | String c rest =>
      if Ascii.eqb c ","%char then (EmptyString, rest)
      else let '(name, opts) := cutComma rest in (String c name, opts)
  end.

(** [tagOptions.Contains]: the option is one of the comma separated ones. *)
Fixpoint optionsContain (fuel : nat) (opts name : string) : bool :=
  match fuel with
  | O => false
  | S fuel' =>
      if String.eqb opts "" then false
      else let '(o, rest) := cutComma opts in
           if String.eqb o name then true else optionsContain fuel' rest name
  end.

Definition Contains (opts name : string) : bool :=
  optionsContain (S (String.length opts)) opts name.

Definition isUpper (c : Ascii.ascii) : bool :=
  let n := Ascii.nat_of_ascii c in (65 <=? n)%nat && (n <=? 90)%nat.

Definition isLetterOrDigit (c : Ascii.ascii) : bool :=
  let n := Ascii.nat_of_ascii c in
  ((65 <=? n)%nat && (n <=? 90)%nat) || ((97 <=? n)%nat && (n <=? 122)%nat)
  || ((48 <=? n)%nat && (n <=? 57)%nat).

Definition tagPunctuation : string := "!#$%&()*+-./:;<=>?@[]^_{|}~ ".

Fixpoint occurs (c : Ascii.ascii) (s : string) : bool :=
  match s with
  | EmptyString => false
  | String d rest => Ascii.eqb c d || occurs c rest
  end.

Fixpoint allChars (p : Ascii.ascii -> bool) (s : string) : bool :=
  match s with
  | EmptyString => true
  | String c rest => p c && allChars p rest
  end.

(** [isValidTag]: a key is usable when it is not empty and is made of
    letters, digits and the listed punctuation. *)
Definition isValidTag (name : string) : bool :=
  negb (String.eqb name "")
  && allChars (fun c => occurs c tagPunctuation || isLetterOrDigit c) name.

(** [IsExported] of a field: its name starts with an upper case letter. *)
Definition isExported (fieldName : string) : bool :=
  match fieldName with
  | EmptyString => false
  | String c _ => isUpper c
  end.

(** What [typeFields] records for one field: [None] when the field is not a
    member of the payload at all (unexported, or tagged ["-"]), else the key
    under which it is written and whether [omitempty] was asked for. A field
    without a usable key in its tag is written under its Go name. *)
Definition fieldKey (fieldName tag : string) : option (string * bool) :=
  if negb (isExported fieldName) then None
  else if String.eqb tag "-" then None
  else
    let '(name, opts) := cutComma tag in
    let key := if isValidTag name then name else fieldName in
    Some (key, Contains opts "omitempty").

(** [isEmptyValue]: what [omitempty] drops. A struct is never empty. *)
Definition isEmptyValue (v : Value) : bool :=
  match v with
  | VString s => String.eqb s ""
  | VBool b => negb b
  | VFloat64 f => PrimFloat.eqb f PrimFloat.zero
  | VPtr p => match p with None => true | Some _ => false end
  | VTime _ | VStruct _ => false
  end.

(** [json.Marshal]. The encoder reports an error ([None]) for a float that is
    not finite and for a time whose year is outside 0..9999; a nil pointer is
    written as [null] and any other pointer as what it points to. *)
Fixpoint Marshal (v : Value) : option json :=
  match v with
  | VString s => Some (JString s)
  | VBool b => Some (JBool b)
  | VFloat64 f =>
      if PrimFloat.is_nan f || PrimFloat.is_infinity f then None
      else Some (JNumber f)
  | VTime t =>
      if ((Year t <? 0) || (9999 <? Year t))%Z then None else Some (JTime t)
  | VPtr None => Some JNull
  | VPtr (Some p) => Marshal p
  | VStruct fields =>
      let members :=
        fix members (fs : list (string * string * Value))
          : option (list (string * json)) :=
          match fs with
          | [] => Some []
          | (fieldName, tag, fv) :: rest =>
              match fieldKey fieldName tag with
              | None => members rest
              | Some (key, omitEmpty) =>
                  if omitEmpty && isEmptyValue fv then members rest
                  else
                    match Marshal fv with
                    | None => None
                    | Some j =>
                        match members rest with
                        | None => None
                        | Some js => Some ((key, j) :: js)
                        end
                    end
              end
          end
      in
      match members fields with
      | None => None
      | Some ms => Some (JObject ms)
      end
  end.

(** The members written for a list of fields: the struct case of [Marshal],
    as a function of its own. *)
Fixpoint marshalFields (fs : list (string * string * Value))
  : option (list (string * json)) :=
  match fs with
  | [] => Some []
  | (fieldName, tag, fv) :: rest =>
      match fieldKey fieldName tag with
      | None => marshalFields rest
      | Some (key, omitEmpty) =>
          if omitEmpty && isEmptyValue fv then marshalFields rest
          else
            match Marshal fv with
            | None => None
            | Some j =>
                match marshalFields rest with
                | None => None
                | Some js => Some ((key, j) :: js)
                end
            end
      end
  end.

(** The keys of an encoded object, in the order they are written. *)
Definition keys (j : json) : list string :=
  match j with
  | JObject members => members.*1
  | _ => []
  end.

Definition member (key : string) (j : json) : option json :=
  match j with
  | JObject members => snd <$> List.find (fun kv => String.eqb (fst kv) key) members
  | _ => None
  end.

End Json.

(** ** The data shapes of customer.go *)

(** [Merchant *Merchant]: nil, or the address of a live Merchant value. *)
Definition MerchantPtr := option positive.

(** [[]T]: the nil slice, or a slice with its elements. *)
Definition slice (A : Type) := option (list A).

Record Address := mkAddress {
  Address_Line1 : string;
  Address_Line2 : string;
  Address_Line3 : string;
  Address_PostalCode : string;
  Address_State : string;
  Address_City : string;
  Address_CountryCode : string
}.

Record StoreReference := mkStoreReference {
  StoreReference_Reference : string;
  StoreReference_BarcodeURL : string;
  StoreReference_PaybinReference : string;
  StoreReference_BarcodePaybinURL : string
}.

Record Customer := mkCustomer {
  Customer_ID : string;
  Customer_CreationDate : Go.Time;
  Customer_Name : string;
  Customer_LastName : string;
  Customer_Email : string;
  Customer_PhoneNumber : string;
  Customer_Status : string;
  Customer_Balance : Go.float64;
  Customer_CLABE : string;
  Customer_Address : Address;
  Customer_Store : StoreReference;
  Customer_Merchant : MerchantPtr
}.

Record CustomerArgs := mkCustomerArgs {
  CustomerArgs_ExternalID : string;
  CustomerArgs_Name : string;
  CustomerArgs_LastName : string;
  CustomerArgs_Email : string;
  CustomerArgs_RequiresAccount : bool;
  CustomerArgs_PhoneNumber : string;
  CustomerArgs_Address : Address
}.

(** The write-side shape of a charge. *)
Record ChargeArgs := mkChargeArgs {
  ChargeArgs_Source_id : string;
  ChargeArgs_Method : string;
  ChargeArgs_Amount : Go.float64;
  ChargeArgs_Currency : string;
  ChargeArgs_Description : string;
  ChargeArgs_Order_id : string;
  ChargeArgs_Device_session_id : string
}.

(** The zero values, as [var customer Customer] declares them. *)
Definition zeroAddress : Address := mkAddress "" "" "" "" "" "" "".

Definition zeroStoreReference : StoreReference := mkStoreReference "" "" "" "".

Definition zeroCustomer : Customer :=
  mkCustomer "" Go.zeroTime "" "" "" "" "" PrimFloat.zero "" zeroAddress
    zeroStoreReference None.

(** [customer.Merchant = m] *)
Definition setMerchant (m : MerchantPtr) (c : Customer) : Customer :=
  mkCustomer (Customer_ID c) (Customer_CreationDate c) (Customer_Name c)
    (Customer_LastName c) (Customer_Email c) (Customer_PhoneNumber c)
    (Customer_Status c) (Customer_Balance c) (Customer_CLABE c)
    (Customer_Address c) (Customer_Store c) m.

(** Every field but [Merchant] agrees. *)
Definition sameData (a b : Customer) : Prop :=
  Customer_ID a = Customer_ID b
  /\ Customer_CreationDate a = Customer_CreationDate b
  /\ Customer_Name a = Customer_Name b
  /\ Customer_LastName a = Customer_LastName b
  /\ Customer_Email a = Customer_Email b
  /\ Customer_PhoneNumber a = Customer_PhoneNumber b
  /\ Customer_Status a = Customer_Status b
  /\ Customer_Balance a = Customer_Balance b
  /\ Customer_CLABE a = Customer_CLABE b
  /\ Customer_Address a = Customer_Address b
  /\ Customer_Store a = Customer_Store b.

(** *** The structs as the encoder reads them: name, tag, value per field *)

Module Fields.
Import Go.

Definition ofAddress (a : Address) : Value :=
  VStruct [
    ("Line1", "line1", VString (Address_Line1 a));
    ("Line2", "line2", VString (Address_Line2 a));
    ("Line3", "line3", VString (Address_Line3 a));
    ("PostalCode", "postal_code", VString (Address_PostalCode a));
    ("State", "state", VString (Address_State a));
    ("City", "city", VString (Address_City a));
    ("CountryCode", "country_code", VString (Address_CountryCode a))
  ].

Definition ofStoreReference (r : StoreReference) : Value :=
  VStruct [
    ("Reference", "reference", VString (StoreReference_Reference r));
    ("BarcodeURL", "barcode_url", VString (StoreReference_BarcodeURL r));
    ("PaybinReference", "paybin_reference",
       VString (StoreReference_PaybinReference r));
    ("BarcodePaybinURL", "barcode_paybin_url",
       VString (StoreReference_BarcodePaybinURL r))
  ].

(** [pointee] gives the Merchant a non-nil reference points to, as the
    encoder reads it; the Merchant struct is declared outside customer.go. *)
Definition ofCustomer (pointee : positive -> Value) (c : Customer) : Value :=
  VStruct [
    ("ID", "id,omitempty", VString (Customer_ID c));
    ("CreationDate", "creation_date", VTime (Customer_CreationDate c));
    ("Name", "name", VString (Customer_Name c));
    ("LastName", "last_name", VString (Customer_LastName c));
    ("Email", "email", VString (Customer_Email c));
    ("PhoneNumber", "phone_number", VString (Customer_PhoneNumber c));
    ("Status", "status", VString (Customer_Status c));
    ("Balance", "balance", VFloat64 (Customer_Balance c));
    ("CLABE", "clabe", VString (Customer_CLABE c));
    ("Address", "address", ofAddress (Customer_Address c));
    ("Store", "store", ofStoreReference (Customer_Store c));
    ("Merchant", "", VPtr (pointee <$> Customer_Merchant c))
  ].

Definition ofCustomerArgs (a : CustomerArgs) : Value :=
  VStruct [
    ("ExternalID", "external_id,omitempty", VString (CustomerArgs_ExternalID a));
    ("Name", "name", VString (CustomerArgs_Name a));
    ("LastName", "last_name,omitempty", VString (CustomerArgs_LastName a));
    ("Email", "email", VString (CustomerArgs_Email a));
    ("RequiresAccount", "requires_acount", VBool (CustomerArgs_RequiresAccount a));
    ("PhoneNumber", "phone_number,omitempty",
       VString (CustomerArgs_PhoneNumber a));
    ("Address", "address,omitempty", ofAddress (CustomerArgs_Address a))
  ].

Definition ofChargeArgs (a : ChargeArgs) : Value :=
  VStruct [
    ("Source_id", "source_id", VString (ChargeArgs_Source_id a));
    ("Method", "method", VString (ChargeArgs_Method a));
    ("Amount", "amount", VFloat64 (ChargeArgs_Amount a));
    ("Currency", "currency", VString (ChargeArgs_Currency a));
    ("Description", "description", VString (ChargeArgs_Description a));
    ("Order_id", "order_id", VString (ChargeArgs_Order_id a));
    ("Device_session_id", "device_session_id",
       VString (ChargeArgs_Device_session_id a))
  ].

End Fields.

(** *** Decoding a response into a Customer *)

(** [json.Unmarshal] into a [*Customer], for the documents met here: an object
    whose members are strings or [null]. A member is matched to the field
    whose key equals its name, letter case aside; a member that matches no
    field is skipped; [null] leaves a field as it is and clears a pointer.
    [None] stands for a document outside this part of the decoder (a member
    of another kind, or a string sent to a field that is not a string). *)
Module Decode.
Import Json.

Definition toLower (c : ascii) : ascii :=
  if isUpper c then ascii_of_nat (nat_of_ascii c + 32) else c.

Fixpoint EqualFold (a b : string) : bool :=
  match a, b with
  | EmptyString, EmptyString => true
  | String x a', String y b' =>
      Ascii.eqb (toLower x) (toLower y) && EqualFold a' b'
  | _, _ => false
  end.

Definition assign (key name value old : string) : string :=
  if EqualFold name key then value else old.

(** The string fields, each under the key of its tag. *)
Definition setString (name value : string) (c : Customer) : Customer :=
  mkCustomer
    (assign "id" name value (Customer_ID c))
    (Customer_CreationDate c)
    (assign "name" name value (Customer_Name c))
    (assign "last_name" name value (Customer_LastName c))
    (assign "email" name value (Customer_Email c))
    (assign "phone_number" name value (Customer_PhoneNumber c))
    (assign "status" name value (Customer_Status c))
    (Customer_Balance c)
    (assign "clabe" name value (Customer_CLABE c))
    (Customer_Address c)
    (Customer_Store c)
    (Customer_Merchant c).

(** The keys of the fields that are not strings. *)
Definition otherKeys : list string :=
  ["creation_date"; "balance"; "address"; "store"; "Merchant"].

Fixpoint members (ms : list (string * json)) (c : Customer) : option Customer :=
  match ms with
  | [] => Some c
  | (name, JString value) :: rest =>
      if existsb (EqualFold name) otherKeys then None
      else members rest (setString name value c)
  | (name, JNull) :: rest =>
      members rest (if EqualFold name "Merchant" then setMerchant None c else c)
  | _ => None
  end.

Definition Unmarshal (j : json) (c : Customer) : option Customer :=
  match j with
  | JObject ms => members ms c
  | _ => None
  end.

(** The document [{"id":"cust_1","name":"Ana"}]. *)
Definition ana : json :=
  JObject [("id", JString "cust_1"); ("name", JString "Ana")].

End Decode.

(** ** The session collaborator and the effects of a call *)

(** What [dst interface{}] points to when [perform] is called: nothing (an
    untyped nil), the local [customer], the local [customers], or a
    destination of the caller's own. *)
Inductive Dst := DstNil | DstCustomer | DstCustomers | DstDyn.

(** A run-time panic of the Go program. *)
Inductive Panic := NilPointerDereference.

Inductive Outcome (A : Type) :=
| Returns (a : A)
| Panics (p : Panic).
Arguments Returns {A} a.
Arguments Panics {A} p.

Section Collaborator.

(** The collaborator's request type, the non-nil values of [error], the
    state behind the session (transport, remote side) and the values of
    other types a caller passes as [interface{}]. *)
Context {Request Err State Dyn : Type}.

(** The content of a destination of each kind. *)
Definition cell (k : Dst) : Type :=
  match k with
  | DstNil => unit
  | DstCustomer => Customer
  | DstCustomers => slice Customer
  | DstDyn => Dyn
  end.

(** What [data interface{}] holds when [newRequest] is called: an untyped
    nil, [&args] with [args *CustomerArgs], [data *Customer], or a value of
    the caller's own. *)
Inductive Body :=
| BodyNil
| BodyCustomerArgs (args : option CustomerArgs)
| BodyCustomer (data : option Customer)
| BodyDyn (d : Dyn).

(** The two methods of [m.client], declared outside customer.go.
    [newRequest] returns a request or an error; [perform] returns the error
    (nil as [None]) and leaves the destination with the content given. *)
Record Client := mkClient {
  newRequest : string -> string -> Body -> State -> (Request + Err) * State;
  perform : forall k : Dst,
    Request -> cell k -> State -> (cell k * option Err) * State
}.

(** One call on the collaborator, with what it returned. *)
Inductive Call :=
| CallNewRequest (verb path : string) (body : Body) (result : Request + Err)
| CallPerform (req : Request) (k : Dst) (err : option Err).

(** A computation: from the state of the collaborator to an outcome, the
    state left behind and the calls made, oldest first. *)
Definition Run (A : Type) : Type := State -> Outcome A * State * list Call.

#[export] Instance Run_ret : MRet Run := fun A a s => (Returns a, s, []).

#[export] Instance Run_bind : MBind Run := fun A B f r s =>
  match r s with
  | (Returns a, s1, t1) =>
      let '(o, s2, t2) := f a s1 in (o, s2, t1 ++ t2)
  | (Panics p, s1, t1) => (Panics p, s1, t1)
  end.

Definition panic {A} (p : Panic) : Run A := fun s => (Panics p, s, []).

(** Reading a field through a pointer: nil panics. *)
Definition deref {A} (p : option A) : Run A :=
  match p with
  | Some a => mret a
  | None => panic NilPointerDereference
  end.

Definition callNewRequest (cl : Client) (verb path : string) (body : Body)
  : Run (Request + Err) := fun s =>
  let '(r, s') := newRequest cl verb path body s in
  (Returns r, s', [CallNewRequest verb path body r]).

Definition callPerform (cl : Client) (k : Dst) (req : Request) (dst : cell k)
  : Run (cell k * option Err) := fun s =>
  let '(dst', err, s') := perform cl k req dst s in
  (Returns (dst', err), s', [CallPerform req k err]).

(** [for i := range customers { customers[i].Merchant = m }]: the length is
    read once and the index runs from 0. *)
Fixpoint rangeSetMerchant (m : MerchantPtr) (n i : nat)
  (customers : list Customer) : list Customer :=
  match n with
  | O => customers
  | S n' => rangeSetMerchant m n' (S i) (alter (setMerchant m) i customers)
  end.

Definition setMerchants (m : MerchantPtr) (customers : slice Customer)
  : slice Customer :=
  match customers with
  | None => None
  | Some l => Some (rangeSetMerchant m (length l) 0 l)
  end.

(** The elements of a slice; the nil slice has none. *)
Definition elems {A} (s : slice A) : list A := default [] s.

(** The outcome, the state left and the calls of a run. *)
Definition outcome {A} (r : Outcome A * State * list Call) : Outcome A := r.1.1.
Definition calls {A} (r : Outcome A * State * list Call) : list Call := r.2.

Definition isPerform (c : Call) : bool :=
  match c with
  | CallPerform _ _ _ => true
  | CallNewRequest _ _ _ _ => false
  end.

Section Merchant.

(** The Merchant struct is declared outside customer.go; the file reads
    its [client] field only. [merchants] gives the value behind each
    address: a Go pointer is nil or points to a live value. *)
Context {Merchant : Type}.
Variable client : Merchant -> Client.
Variable merchants : positive -> Merchant.

(** [m.client] *)
Definition m_client (m : MerchantPtr) : Run Client :=
  mv ← deref (merchants <$> m); mret (client mv).

Definition performCustomerOperation (m : MerchantPtr) (verb id : string)
  (data : Body) (k : Dst) (dst : cell k) : Run (cell k * option Err) :=
  cl ← m_client m;
  r ← callNewRequest cl verb (Go.Sprintf "customers/%s" [id]) data;
  match r with
  | inr err => mret (dst, Some err)
  | inl req =>
      '(dst', e) ← callPerform cl k req dst;
      match e with
      | Some err => mret (dst', Some err)
      | None => mret (dst', None)
      end
  end.

Definition AddCustomer (m : MerchantPtr) (args : option CustomerArgs)
  : Run (option Customer * option Err) :=
  cl ← m_client m;
  r ← callNewRequest cl "POST" "customers" (BodyCustomerArgs args);
  match r with
  | inr err => mret (None, Some err)
  | inl req =>
      cl' ← m_client m;
      '(customer, e) ← callPerform cl' DstCustomer req zeroCustomer;
      match e with
      | Some err => mret (None, Some err)
      | None => mret (Some (setMerchant m customer), None)
      end
  end.

Definition GetCustomers (m : MerchantPtr)
  : Run (slice Customer * option Err) :=
  cl ← m_client m;
  r ← callNewRequest cl "GET" "customers" BodyNil;
  match r with
  | inr err => mret (None, Some err)
  | inl req =>
      cl' ← m_client m;
      '(customers, e) ← callPerform cl' DstCustomers req None;
      match e with
      | Some err => mret (None, Some err)
      | None => mret (setMerchants m customers, None)
      end
  end.

Definition GetCustomer (m : MerchantPtr) (id : string)
  : Run (option Customer * option Err) :=
  '(customer, e) ←
    performCustomerOperation m "GET" id BodyNil DstCustomer zeroCustomer;
  match e with
  | Some err => mret (None, Some err)
  | None => mret (Some (setMerchant m customer), None)
  end.

Definition UpdateCustomer (m : MerchantPtr) (id : string)
  (data : option Customer) : Run (option Customer * option Err) :=
  '(customer, e) ←
    performCustomerOperation m "PUT" id (BodyCustomer data) DstCustomer
      zeroCustomer;
  match e with
  | Some err => mret (None, Some err)
  | None => mret (Some (setMerchant m customer), None)
  end.

Definition DeleteCustomer (m : MerchantPtr) (id : string)
  : Run (option Err) :=
  '(_, e) ← performCustomerOperation m "DELETE" id BodyNil DstNil tt;
  mret e.

(** The receiver is [c *Customer]; the result is the error, with the
    content the destination is left with. *)
Definition ChargeCustomer (c : option Customer) (data : Body) (k : Dst)
  (dst : cell k) : Run (cell k * option Err) :=
  cv ← deref c;
  performCustomerOperation (Customer_Merchant cv) "POST"
    (Go.Sprintf "%s/charges" [Customer_ID cv]) data k dst.

(** A call of one of the six operations, and what it returns. *)
Inductive Operation :=
| OpAddCustomer (m : MerchantPtr) (args : option CustomerArgs)
| OpGetCustomers (m : MerchantPtr)
| OpGetCustomer (m : MerchantPtr) (id : string)
| OpUpdateCustomer (m : MerchantPtr) (id : string) (data : option Customer)
| OpDeleteCustomer (m : MerchantPtr) (id : string)
| OpChargeCustomer (c : option Customer) (data : Body) (k : Dst)
    (dst : cell k).

Inductive Result :=
| OneCustomer (customer : option Customer) (err : option Err)
| ManyCustomers (customers : slice Customer) (err : option Err)
| OnlyError (err : option Err).

Definition resultError (r : Result) : option Err :=
  match r with
  | OneCustomer _ err | ManyCustomers _ err | OnlyError err => err
  end.

(** The result part is nil, where the operation has one. *)
Definition resultIsNil (r : Result) : Prop :=
  match r with
  | OneCustomer customer _ => customer = None
  | ManyCustomers customers _ => customers = None
  | OnlyError _ => True
  end.

Definition invoke (op : Operation) : Run Result :=
  match op with
  | OpAddCustomer m args =>
      '(customer, err) ← AddCustomer m args; mret (OneCustomer customer err)
  | OpGetCustomers m =>
      '(customers, err) ← GetCustomers m; mret (ManyCustomers customers err)
  | OpGetCustomer m id =>
      '(customer, err) ← GetCustomer m id; mret (OneCustomer customer err)
  | OpUpdateCustomer m id data =>
      '(customer, err) ← UpdateCustomer m id data;
      mret (OneCustomer customer err)
  | OpDeleteCustomer m id =>
      err ← DeleteCustomer m id; mret (OnlyError err)
  | OpChargeCustomer c data k dst =>
      '(_, err) ← ChargeCustomer c data k dst; mret (OnlyError err)
  end.

(** The Merchant whose client an operation calls: the receiver of the
    method, and for ChargeCustomer the Merchant of the receiving Customer. *)
Definition merchantOf (op : Operation) : MerchantPtr :=
  match op with
  | OpAddCustomer m _ | OpGetCustomers m | OpGetCustomer m _
  | OpUpdateCustomer m _ _ | OpDeleteCustomer m _ => m
  | OpChargeCustomer c _ _ _ => c ≫= Customer_Merchant
  end.

End Merchant.
End Collaborator.

(** ** A scripted collaborator *)

(** A session whose requests are the verb and path asked for and whose state
    counts the requests performed. It cannot build a request for
    [customers/unbuildable], cannot reach [customers/unreachable], answers
    GET [customers/cust_1] with [{"id":"cust_1","name":"Ana"}] and GET
    [customers] with two customers, and sends no body otherwise. *)
Module Mock.
Import Json.

Definition Request : Type := string * string.
Definition Err : Type := string.
Definition State : Type := nat.
Definition Dyn : Type := string.

Definition listed : list Customer :=
  [ mkCustomer "cust_1" Go.zeroTime "Ana" "" "" "" "" PrimFloat.zero ""
      zeroAddress zeroStoreReference None;
    mkCustomer "cust_2" Go.zeroTime "Luz" "" "" "" "" PrimFloat.one ""
      zeroAddress zeroStoreReference (Some 7%positive) ].

Definition mockNewRequest (verb path : string) (body : @Body Dyn) (s : State)
  : (Request + Err) * State :=
  if String.eqb path "customers/unbuildable"
  then (inr "cannot build the request", s)
  else (inl (verb, path), s).

Definition mockPerform (k : Dst) (req : Request) : @cell Dyn k -> State ->
  (@cell Dyn k * option Err) * State :=
  let '(verb, path) := req in
  if String.eqb path "customers/unreachable"
  then fun dst s => ((dst, Some "connection refused"), S s)
  else
    match k return @cell Dyn k -> State -> (@cell Dyn k * option Err) * State with
    | DstCustomer => fun dst s =>
        if String.eqb verb "GET" && String.eqb path "customers/cust_1"
        then
          match Decode.Unmarshal Decode.ana dst with
          | Some customer => ((customer, None), S s)
          | None => ((dst, Some "cannot decode the response"), S s)
          end
        else ((dst, None), S s)
    | DstCustomers => fun dst s =>
        if String.eqb verb "GET" && String.eqb path "customers"
        then ((Some listed, None), S s)
        else ((dst, None), S s)
    | _ => fun dst s => ((dst, None), S s)
    end.

Definition mockClient : @Client Request Err State Dyn :=
  mkClient mockNewRequest mockPerform.

Record Merchant := mkMerchant { client : @Client Request Err State Dyn }.

Definition merchants (_ : positive) : Merchant := mkMerchant mockClient.

(** The session context used in the scenarios. *)
Definition ctx : MerchantPtr := Some 1%positive.

(** This Merchant as the encoder reads it: [client] is not exported, so no
    field of it is read. *)
Definition pointee (_ : positive) : Go.Value := Go.VStruct [].

(** A Customer built by hand, its Merchant never set. *)
Definition orphan : Customer :=
  mkCustomer "cust_1" Go.zeroTime "Ana" "" "ana@example.com" "" ""
    PrimFloat.zero "" zeroAddress zeroStoreReference None.

(** Arguments with the required fields only. *)
Definition requiredOnly : CustomerArgs :=
  mkCustomerArgs "" "Ana" "" "ana@example.com" false "" zeroAddress.

(** A charge of 100 pesos on a stored card. *)
Definition charge : ChargeArgs :=
  mkChargeArgs "card_1" "card" 100%float "MXN" "" "" "".

End Mock.

(** * Properties *)

(** ** The path and the encoder on the shapes of customer.go *)

Lemma append_empty_r (s : string) : s +:+ "" = s.
Proof.
  induction s as [|c s IH]; [reflexivity|].
  change (String c (s +:+ "") = String c s). by rewrite IH.
Qed.

Lemma Sprintf_customers (id : string) :
  Go.Sprintf "customers/%s" [id] = "customers/" +:+ id.
Proof. simpl. by rewrite append_empty_r. Qed.

Lemma Sprintf_charges (id : string) :
  Go.Sprintf "%s/charges" [id] = id +:+ "/charges".
Proof. reflexivity. Qed.

Example Sprintf_keeps_percent :
  Go.Sprintf "customers/%s" ["%s"] = "customers/%s".
Proof. reflexivity. Qed.

Example fieldKey_tagged :
  Json.fieldKey "ExternalID" "external_id,omitempty" = Some ("external_id", true).
Proof. reflexivity. Qed.

Example fieldKey_untagged : Json.fieldKey "Merchant" "" = Some ("Merchant", false).
Proof. reflexivity. Qed.

Example fieldKey_unexported : Json.fieldKey "client" "" = None.
Proof. reflexivity. Qed.

Example Unmarshal_ana :
  Decode.Unmarshal Decode.ana zeroCustomer =
  Some (mkCustomer "cust_1" Go.zeroTime "Ana" "" "" "" "" PrimFloat.zero ""
          zeroAddress zeroStoreReference None).
Proof. reflexivity. Qed.

(** ** The encoder, field by field *)

Section MarshalFacts.
Import Go Json.

Lemma marshalFields_unfold n t v rest :
  marshalFields ((n, t, v) :: rest) =
  match fieldKey n t with
  | None => marshalFields rest
  | Some (key, omitEmpty) =>
      if omitEmpty && isEmptyValue v then marshalFields rest
      else match Marshal v with
           | None => None
           | Some j => match marshalFields rest with
                       | None => None
                       | Some js => Some ((key, j) :: js)
                       end
           end
  end.
Proof. reflexivity. Qed.

Lemma Marshal_struct (fs : list (string * string * Value)) :
  Marshal (VStruct fs) = JObject <$> marshalFields fs.
Proof.
  enough (Hfix :
    (fix members (fs : list (string * string * Value))
       : option (list (string * json)) :=
       match fs with
       | [] => Some []
       | (fieldName, tag, fv) :: rest =>
           match fieldKey fieldName tag with
           | None => members rest
           | Some (key, omitEmpty) =>
               if omitEmpty && isEmptyValue fv then members rest
               else match Marshal fv with
                    | None => None
                    | Some j => match members rest with
                                | None => None
                                | Some js => Some ((key, j) :: js)
                                end
                    end
           end
       end) fs = marshalFields fs).
  { change (Marshal (VStruct fs)) with
      (match (fix members (fs : list (string * string * Value))
                : option (list (string * json)) :=
                match fs with
                | [] => Some []
                | (fieldName, tag, fv) :: rest =>
                    match fieldKey fieldName tag with
                    | None => members rest
                    | Some (key, omitEmpty) =>
                        if omitEmpty && isEmptyValue fv then members rest
                        else match Marshal fv with
                             | None => None
                             | Some j => match members rest with
                                         | None => None
                                         | Some js => Some ((key, j) :: js)
                                         end
                             end
                    end
                end) fs
       with None => None | Some ms => Some (JObject ms) end).
    rewrite Hfix. by destruct (marshalFields fs). }
  induction fs as [|[[n t] v] rest IH]; [reflexivity|].
  rewrite marshalFields_unfold, <- IH. reflexivity.
Qed.

(** A field written whatever its value. *)
Lemma marshalFields_always n t v rest key :
  fieldKey n t = Some (key, false) ->
  marshalFields ((n, t, v) :: rest) =
  match Marshal v with
  | None => None
  | Some j => match marshalFields rest with
              | None => None
              | Some js => Some ((key, j) :: js)
              end
  end.
Proof. intros H. by rewrite marshalFields_unfold, H. Qed.

(** A field tagged [omitempty]. *)
Lemma marshalFields_omitempty n t v rest key :
  fieldKey n t = Some (key, true) ->
  marshalFields ((n, t, v) :: rest) =
  if isEmptyValue v then marshalFields rest
  else match Marshal v with
       | None => None
       | Some j => match marshalFields rest with
                   | None => None
                   | Some js => Some ((key, j) :: js)
                   end
       end.
Proof. intros H. by rewrite marshalFields_unfold, H. Qed.

Lemma Marshal_string s : Marshal (VString s) = Some (JString s).
Proof. reflexivity. Qed.

Lemma Marshal_Address (a : Address) :
  Marshal (Fields.ofAddress a) =
  Some (JObject [
    ("line1", JString (Address_Line1 a));
    ("line2", JString (Address_Line2 a));
    ("line3", JString (Address_Line3 a));
    ("postal_code", JString (Address_PostalCode a));
    ("state", JString (Address_State a));
    ("city", JString (Address_City a));
    ("country_code", JString (Address_CountryCode a)) ]).
Proof. reflexivity. Qed.

Lemma Marshal_StoreReference (r : StoreReference) :
  Marshal (Fields.ofStoreReference r) =
  Some (JObject [
    ("reference", JString (StoreReference_Reference r));
    ("barcode_url", JString (StoreReference_BarcodeURL r));
    ("paybin_reference", JString (StoreReference_PaybinReference r));
    ("barcode_paybin_url", JString (StoreReference_BarcodePaybinURL r)) ]).
Proof. reflexivity. Qed.

(** The payload of a Customer: the member [id] when the ID is not empty,
    the ten members that are always written and, last, the member
    [Merchant]. *)
Lemma Marshal_Customer (pointee : positive -> Value) (c : Customer) (j : json) :
  Marshal (Fields.ofCustomer pointee c) = Some j ->
  exists jt jb mj : json,
    Marshal (VTime (Customer_CreationDate c)) = Some jt
    /\ Marshal (VFloat64 (Customer_Balance c)) = Some jb
    /\ Marshal (VPtr (pointee <$> Customer_Merchant c)) = Some mj
    /\ j = JObject (
         (if String.eqb (Customer_ID c) "" then []
          else [("id", JString (Customer_ID c))]) ++
         [("creation_date", jt);
          ("name", JString (Customer_Name c));
          ("last_name", JString (Customer_LastName c));
          ("email", JString (Customer_Email c));
          ("phone_number", JString (Customer_PhoneNumber c));
          ("status", JString (Customer_Status c));
          ("balance", jb);
          ("clabe", JString (Customer_CLABE c));
          ("address", JObject [
             ("line1", JString (Address_Line1 (Customer_Address c)));
             ("line2", JString (Address_Line2 (Customer_Address c)));
             ("line3", JString (Address_Line3 (Customer_Address c)));
             ("postal_code",
                JString (Address_PostalCode (Customer_Address c)));
             ("state", JString (Address_State (Customer_Address c)));
             ("city", JString (Address_City (Customer_Address c)));
             ("country_code",
                JString (Address_CountryCode (Customer_Address c))) ]);
          ("store", JObject [
             ("reference",
                JString (StoreReference_Reference (Customer_Store c)));
             ("barcode_url",
                JString (StoreReference_BarcodeURL (Customer_Store c)));
             ("paybin_reference",
                JString (StoreReference_PaybinReference (Customer_Store c)));
             ("barcode_paybin_url",
                JString (StoreReference_BarcodePaybinURL (Customer_Store c))) ]);
          ("Merchant", mj)]).
Proof.
  unfold Fields.ofCustomer. rewrite Marshal_struct.
  repeat first
    [ erewrite marshalFields_always by (vm_compute; reflexivity)
    | erewrite marshalFields_omitempty by (vm_compute; reflexivity) ].
  rewrite !Marshal_string, Marshal_Address, Marshal_StoreReference.
  change (marshalFields []) with (Some (@nil (string * json))).
  change (isEmptyValue (VString (Customer_ID c)))
    with (String.eqb (Customer_ID c) "").
  destruct (Marshal (VTime (Customer_CreationDate c))) as [jt|];
    destruct (Marshal (VFloat64 (Customer_Balance c))) as [jb|];
    destruct (Marshal (VPtr (pointee <$> Customer_Merchant c))) as [mj|];
    destruct (String.eqb (Customer_ID c) "");
    intros H; try discriminate H;
    injection H as <-; exists jt, jb, mj; repeat split; reflexivity.
Qed.

End MarshalFacts.

(** ** The operations in terms of the two calls *)

Section Properties.

Context {Request Err State Dyn Merchant : Type}.
Variable client : Merchant -> @Client Request Err State Dyn.
Variable merchants : positive -> Merchant.

Ltac run :=
  unfold performCustomerOperation, AddCustomer, GetCustomers, GetCustomer,
    UpdateCustomer, DeleteCustomer, ChargeCustomer, m_client, deref, panic,
    callNewRequest, callPerform, mbind, mret, Run_bind, Run_ret;
  simpl.

Lemma performCustomerOperation_nil verb id data k (dst : cell k) s :
  performCustomerOperation client merchants None verb id data k dst s =
  (Panics NilPointerDereference, s, []).
Proof. reflexivity. Qed.

Lemma performCustomerOperation_run l verb id data k (dst : cell k) s :
  performCustomerOperation client merchants (Some l) verb id data k dst s =
  let cl := client (merchants l) in
  let path := "customers/" +:+ id in
  match newRequest cl verb path data s with
  | (inr e, s1) =>
      (Returns (dst, Some e), s1, [CallNewRequest verb path data (inr e)])
  | (inl req, s1) =>
      let '(dst', err, s2) := perform cl k req dst s1 in
      (Returns (dst', err), s2,
       [CallNewRequest verb path data (inl req); CallPerform req k err])
  end.
Proof.
  unfold performCustomerOperation. rewrite Sprintf_customers. run.
  destruct (newRequest _ _ _ _ _) as [[req|e] s1]; simpl; [|reflexivity].
  destruct (perform _ _ _ _ _) as [[dst' [e|]] s2]; reflexivity.
Qed.

Lemma AddCustomer_run l args s :
  AddCustomer client merchants (Some l) args s =
  let cl := client (merchants l) in
  let body := BodyCustomerArgs args in
  match newRequest cl "POST" "customers" body s with
  | (inr e, s1) =>
      (Returns (None, Some e), s1,
       [CallNewRequest "POST" "customers" body (inr e)])
  | (inl req, s1) =>
      let '(customer, err, s2) := perform cl DstCustomer req zeroCustomer s1 in
      (Returns (match err with
                | Some e => (None, Some e)
                | None => (Some (setMerchant (Some l) customer), None)
                end), s2,
       [CallNewRequest "POST" "customers" body (inl req);
        CallPerform req DstCustomer err])
  end.
Proof.
  run. destruct (newRequest _ _ _ _ _) as [[req|e] s1]; simpl; [|reflexivity].
  destruct (perform _ _ _ _ _) as [[customer [e|]] s2]; reflexivity.
Qed.

Lemma GetCustomers_run l s :
  GetCustomers client merchants (Some l) s =
  let cl := client (merchants l) in
  match newRequest cl "GET" "customers" BodyNil s with
  | (inr e, s1) =>
      (Returns (None, Some e), s1,
       [CallNewRequest "GET" "customers" BodyNil (inr e)])
  | (inl req, s1) =>
      let '(customers, err, s2) := perform cl DstCustomers req None s1 in
      (Returns (match err with
                | Some e => (None, Some e)
                | None => (setMerchants (Some l) customers, None)
                end), s2,
       [CallNewRequest "GET" "customers" BodyNil (inl req);
        CallPerform req DstCustomers err])
  end.
Proof.
  run. destruct (newRequest _ _ _ _ _) as [[req|e] s1]; simpl; [|reflexivity].
  destruct (perform _ _ _ _ _) as [[customers [e|]] s2]; reflexivity.
Qed.

(** The loop over the indices is a map over the elements. *)
Lemma rangeSetMerchant_from (m : MerchantPtr) (rest done : list Customer) :
  rangeSetMerchant m (length rest) (length done) (done ++ rest) =
  done ++ (setMerchant m <$> rest).
Proof.
  revert done. induction rest as [|c rest IH]; intros done; [reflexivity|].
  simpl. rewrite <- (Nat.add_0_r (length done)) at 2.
  rewrite alter_app_r. simpl.
  specialize (IH (done ++ [setMerchant m c])).
  rewrite length_app, Nat.add_1_r, <- !app_assoc in IH. exact IH.
Qed.

Lemma setMerchants_elems (m : MerchantPtr) (customers : slice Customer) :
  elems (setMerchants m customers) = setMerchant m <$> elems customers.
Proof.
  destruct customers as [l|]; [|reflexivity]. simpl.
  exact (rangeSetMerchant_from m l []).
Qed.

Lemma setMerchant_sameData (m : MerchantPtr) (c : Customer) :
  sameData (setMerchant m c) c.
Proof. repeat split. Qed.

(** ** The claims *)

(** C1, as amended. A Customer whose Merchant reference is nil cannot be
    charged: ChargeCustomer panics with a nil pointer dereference when it
    reads the client of the missing Merchant. No error value is returned,
    no call reaches the collaborator and its state is left as it was. *)
Theorem ChargeCustomer_nil_merchant_panics (c : Customer) (data : Body)
  (k : Dst) (dst : cell k) (s : State) :
  Customer_Merchant c = None ->
  ChargeCustomer client merchants (Some c) data k dst s =
  (Panics NilPointerDereference, s, []).
Proof. intros Hnil. unfold ChargeCustomer. run. by rewrite Hnil. Qed.

(** C4. When newRequest and perform both succeed, AddCustomer makes exactly
    two calls on the collaborator, one newRequest for POST at [customers]
    with the caller's arguments as the body and one perform of the request
    it got, and returns the decoded Customer with its Merchant set to the
    Merchant the method was called on, the other fields as decoded. *)
Theorem AddCustomer_posts_once (l : positive) (args : option CustomerArgs)
  (s s1 s2 : State) (req : Request) (customer : Customer) :
  newRequest (client (merchants l)) "POST" "customers"
    (BodyCustomerArgs args) s = (inl req, s1) ->
  perform (client (merchants l)) DstCustomer req zeroCustomer s1 =
    ((customer, None), s2) ->
  exists result : Customer,
    AddCustomer client merchants (Some l) args s =
      (Returns (Some result, None), s2,
       [CallNewRequest "POST" "customers" (BodyCustomerArgs args) (inl req);
        CallPerform req DstCustomer None])
    /\ Customer_Merchant result = Some l
    /\ sameData result customer.
Proof.
  intros Hnew Hperform. exists (setMerchant (Some l) customer).
  rewrite AddCustomer_run. simpl. rewrite Hnew, Hperform.
  split; [reflexivity|]. split; [reflexivity|]. apply setMerchant_sameData.
Qed.

(** C5. When newRequest and perform both succeed, GetCustomers returns as
    many customers as the collaborator decoded, in the same order, each
    with its Merchant set to the calling Merchant and every other field as
    the collaborator left it. *)
Theorem GetCustomers_sets_every_Merchant (l : positive) (s s1 s2 : State)
  (req : Request) (customers : slice Customer) :
  newRequest (client (merchants l)) "GET" "customers" BodyNil s =
    (inl req, s1) ->
  perform (client (merchants l)) DstCustomers req None s1 =
    ((customers, None), s2) ->
  exists result : slice Customer,
    GetCustomers client merchants (Some l) s =
      (Returns (result, None), s2,
       [CallNewRequest "GET" "customers" BodyNil (inl req);
        CallPerform req DstCustomers None])
    /\ length (elems result) = length (elems customers)
    /\ forall (i : nat) (c : Customer),
         elems customers !! i = Some c ->
         exists r : Customer,
           elems result !! i = Some r
           /\ Customer_Merchant r = Some l
           /\ sameData r c.
Proof.
  intros Hnew Hperform. exists (setMerchants (Some l) customers).
  rewrite GetCustomers_run. simpl. rewrite Hnew, Hperform.
  split; [reflexivity|]. rewrite setMerchants_elems.
  split; [apply length_fmap|].
  intros i c Hi. exists (setMerchant (Some l) c).
  rewrite list_lookup_fmap, Hi.
  split; [reflexivity|]. split; [reflexivity|]. apply setMerchant_sameData.
Qed.

(** C2, as amended. The Merchant field is exported and carries no json
    tag, so every encoded Customer has a member named [Merchant], written
    last: [null] when the reference is nil, the encoded Merchant
    otherwise. UpdateCustomer hands the caller's Customer as it is to
    newRequest as the body of the PUT, so the encoding of that body has the
    member too. *)
Theorem Customer_payload_has_Merchant :
  (forall (pointee : positive -> Go.Value) (c : Customer) (j : Json.json),
     Json.Marshal (Fields.ofCustomer pointee c) = Some j ->
     exists mj : Json.json,
       Json.member "Merchant" j = Some mj
       /\ last (Json.keys j) = Some "Merchant"
       /\ match Customer_Merchant c with
          | None => mj = Json.JNull
          | Some l => Json.Marshal (pointee l) = Some mj
          end)
  /\ (forall (l : positive) (id : string) (data : option Customer)
        (s : State),
       exists (r : Request + Err) (rest : list Call),
         calls (UpdateCustomer client merchants (Some l) id data s) =
         CallNewRequest "PUT" ("customers/" +:+ id) (BodyCustomer data) r
           :: rest).
Proof.
  split.
  - intros pointee c j Hj.
    destruct (Marshal_Customer pointee c j Hj)
      as (jt & jb & mj & _ & _ & Hm & ->).
    exists mj. split; [|split].
    + by destruct (String.eqb (Customer_ID c) "").
    + by destruct (String.eqb (Customer_ID c) "").
    + destruct (Customer_Merchant c) as [l|]; simpl in Hm; [exact Hm|].
      by injection Hm as <-.
  - intros l id data s. unfold UpdateCustomer, mbind, Run_bind, calls.
    rewrite performCustomerOperation_run. simpl.
    destruct (newRequest _ _ _ _ _) as [[req|e] s1]; simpl.
    + destruct (perform _ _ _ _ _) as [[c [e|]] s2]; simpl; eauto.
    + eauto.
Qed.

(** C6. For every id GetCustomer builds exactly one request, for GET at
    [customers/] followed by the id and with no body, and performs it once
    when it could be built, into a Customer. With a collaborator that
    answers GET [customers/cust_1] by decoding [{"id":"cust_1","name":"Ana"}]
    into the destination, GetCustomer("cust_1") returns the Customer with
    ID [cust_1], name [Ana] and the calling Merchant. *)
Theorem GetCustomer_gets_once (l : positive) :
  (forall (id : string) (s : State),
     let cl := client (merchants l) in
     let path := "customers/" +:+ id in
     let t := calls (GetCustomer client merchants (Some l) id s) in
     (exists (e : Err) (s1 : State),
        newRequest cl "GET" path BodyNil s = (inr e, s1)
        /\ t = [CallNewRequest "GET" path BodyNil (inr e)])
     \/ (exists (req : Request) (s1 : State) (err : option Err),
           newRequest cl "GET" path BodyNil s = (inl req, s1)
           /\ t = [CallNewRequest "GET" path BodyNil (inl req);
                   CallPerform req DstCustomer err]))
  /\ (forall (s s1 s2 : State) (req : Request) (customer : Customer),
       newRequest (client (merchants l)) "GET" "customers/cust_1" BodyNil s
         = (inl req, s1) ->
       Decode.Unmarshal Decode.ana zeroCustomer = Some customer ->
       perform (client (merchants l)) DstCustomer req zeroCustomer s1
         = ((customer, None), s2) ->
       GetCustomer client merchants (Some l) "cust_1" s =
       (Returns
          (Some (mkCustomer "cust_1" Go.zeroTime "Ana" "" "" "" ""
                   PrimFloat.zero "" zeroAddress zeroStoreReference (Some l)),
           None),
        s2,
        [CallNewRequest "GET" "customers/cust_1" BodyNil (inl req);
         CallPerform req DstCustomer None])).
Proof.
  split.
  - intros id s cl path t. subst t.
    unfold GetCustomer, mbind, Run_bind, calls.
    rewrite performCustomerOperation_run. fold cl path. simpl.
    destruct (newRequest cl "GET" path BodyNil s) as [[req|e] s1]; simpl.
    + right. destruct (perform _ _ _ _ _) as [[c [e|]] s2]; simpl; eauto.
    + left. eauto.
  - intros s s1 s2 req customer Hnew Hdecode Hperform.
    injection Hdecode as <-.
    unfold GetCustomer, mbind, Run_bind.
    rewrite performCustomerOperation_run.
    change ("customers/" +:+ "cust_1") with "customers/cust_1".
    simpl. rewrite Hnew, Hperform. reflexivity.
Qed.

(** C7. For every id DeleteCustomer builds exactly one request, for DELETE
    at [customers/] followed by the id and with no body, and performs it
    once when it could be built, with no destination to decode into. What it
    returns is the error alone: nil when both calls succeed. *)
Theorem DeleteCustomer_deletes_once (l : positive) (id : string) (s : State) :
  let cl := client (merchants l) in
  let path := "customers/" +:+ id in
  (exists (e : Err) (s1 : State),
     newRequest cl "DELETE" path BodyNil s = (inr e, s1)
     /\ DeleteCustomer client merchants (Some l) id s =
        (Returns (Some e), s1, [CallNewRequest "DELETE" path BodyNil (inr e)]))
  \/ (exists (req : Request) (s1 s2 : State) (err : option Err),
        newRequest cl "DELETE" path BodyNil s = (inl req, s1)
        /\ perform cl DstNil req tt s1 = ((tt, err), s2)
        /\ DeleteCustomer client merchants (Some l) id s =
           (Returns err, s2,
            [CallNewRequest "DELETE" path BodyNil (inl req);
             CallPerform req DstNil err])).
Proof.
  intros cl path. unfold DeleteCustomer, mbind, Run_bind.
  rewrite performCustomerOperation_run. fold cl path. simpl.
  destruct (newRequest cl "DELETE" path BodyNil s) as [[req|e] s1]; simpl.
  - right. destruct (perform cl DstNil req () s1) as [[[] err] s2] eqn:Hp.
    exists req, s1, s2, err. by rewrite Hp.
  - left. eauto.
Qed.

(** Every run of an operation has one of three shapes: a panic before any
    call; one failed newRequest, whose error is returned with a nil result;
    one newRequest and one perform of the request built, whose error is
    returned, with a nil result when it is not nil. *)
Lemma invoke_cases (op : Operation) (s : State) :
  let run := invoke client merchants op s in
  (exists p : Panic, outcome run = Panics p /\ calls run = [])
  \/ (exists verb path body (e : Err) (r : Result),
        calls run = [CallNewRequest verb path body (inr e)]
        /\ outcome run = Returns r
        /\ resultError r = Some e /\ resultIsNil r)
  \/ (exists verb path body (req : Request) k (err : option Err) (r : Result),
        calls run = [CallNewRequest verb path body (inl req);
                     CallPerform req k err]
        /\ outcome run = Returns r
        /\ resultError r = err /\ (is_Some err -> resultIsNil r)).
Proof.
  destruct op as [[l|] args|[l|]|[l|] id|[l|] id data|[l|] id|[c|] data k dst];
    simpl; try (left; by eexists).
  - right. unfold mbind, Run_bind. rewrite AddCustomer_run. simpl.
    destruct (newRequest _ _ _ _ _) as [[req|e] s1]; simpl.
    + right. destruct (perform _ _ _ _ _) as [[c [e|]] s2]; simpl;
        do 7 eexists; (split; [reflexivity|]); (split; [reflexivity|]);
        split; done.
    + left. do 5 eexists. by repeat split.
  - right. unfold mbind, Run_bind. rewrite GetCustomers_run. simpl.
    destruct (newRequest _ _ _ _ _) as [[req|e] s1]; simpl.
    + right. destruct (perform _ _ _ _ _) as [[c [e|]] s2]; simpl;
        do 7 eexists; (split; [reflexivity|]); (split; [reflexivity|]);
        split; done.
    + left. do 5 eexists. by repeat split.
  - right. unfold GetCustomer, mbind, Run_bind.
    rewrite performCustomerOperation_run. simpl.
    destruct (newRequest _ _ _ _ _) as [[req|e] s1]; simpl.
    + right. destruct (perform _ _ _ _ _) as [[c [e|]] s2]; simpl;
        do 7 eexists; (split; [reflexivity|]); (split; [reflexivity|]);
        split; done.
    + left. do 5 eexists. by repeat split.
  - right. unfold UpdateCustomer, mbind, Run_bind.
    rewrite performCustomerOperation_run. simpl.
    destruct (newRequest _ _ _ _ _) as [[req|e] s1]; simpl.
    + right. destruct (perform _ _ _ _ _) as [[c [e|]] s2]; simpl;
        do 7 eexists; (split; [reflexivity|]); (split; [reflexivity|]);
        split; done.
    + left. do 5 eexists. by repeat split.
  - right. unfold DeleteCustomer, mbind, Run_bind.
    rewrite performCustomerOperation_run. simpl.
    destruct (newRequest _ _ _ _ _) as [[req|e] s1]; simpl.
    + right. destruct (perform _ _ _ _ _) as [[c [e|]] s2]; simpl;
        do 7 eexists; (split; [reflexivity|]); (split; [reflexivity|]);
        split; done.
    + left. do 5 eexists. by repeat split.
  - unfold ChargeCustomer, deref, mbind, mret, Run_bind, Run_ret. simpl.
    destruct (Customer_Merchant c) as [l|].
    + right. rewrite performCustomerOperation_run. simpl.
      destruct (newRequest _ _ _ _ _) as [[req|e] s1]; simpl.
      * right. destruct (perform _ _ _ _ _) as [[d [e|]] s2]; simpl;
          do 7 eexists; (split; [reflexivity|]); (split; [reflexivity|]);
          split; done.
      * left. do 5 eexists. by repeat split.
    + left. rewrite performCustomerOperation_nil. by eexists.
Qed.

Ltac membership :=
  repeat match goal with
  | H : _ ∈ [] |- _ => by apply elem_of_nil in H
  | H : _ ∈ _ :: _ |- _ => apply elem_of_cons in H; destruct H as [H|H]
  | H : CallNewRequest _ _ _ _ = _ |- _ => inversion H; subst; clear H
  | H : CallPerform _ _ _ = _ |- _ => inversion H; subst; clear H
  end.

(** C8. Whichever of the six operations is called, an error that the
    collaborator's newRequest or perform returned during the call is the
    error the operation returns, and the result that goes with it is nil
    where the operation has a result. *)
Theorem collaborator_error_is_returned (op : Operation) (s : State) (e : Err) :
  (exists verb path body,
     CallNewRequest verb path body (inr e)
       ∈ calls (invoke client merchants op s))
  \/ (exists req k,
        CallPerform req k (Some e) ∈ calls (invoke client merchants op s)) ->
  exists r : Result,
    outcome (invoke client merchants op s) = Returns r
    /\ resultError r = Some e
    /\ resultIsNil r.
Proof.
  intros Hcall.
  destruct (invoke_cases op s)
    as [(p & _ & Ht)
       |[(v & pa & b & e' & r & Ht & Ho & He & Hnil)
        |(v & pa & b & rq & k' & err & r & Ht & Ho & He & Hnil)]];
    rewrite Ht in Hcall;
    destruct Hcall as [(verb & path & body & Hin)|(req & k & Hin)];
    membership; exists r; repeat split; try done.
  apply Hnil. by eexists.
Qed.

(** C9. Whichever operation is called, when the collaborator's newRequest
    returned an error during the call, no call of the operation is a
    perform. *)
Theorem failed_newRequest_performs_nothing (op : Operation) (s : State)
  (verb path : string) (body : Body) (e : Err) :
  CallNewRequest verb path body (inr e)
    ∈ calls (invoke client merchants op s) ->
  forall c : Call,
    c ∈ calls (invoke client merchants op s) -> isPerform c = false.
Proof.
  intros Hfail c Hc.
  destruct (invoke_cases op s)
    as [(p & _ & Ht)
       |[(v & pa & b & e' & r & Ht & _)
        |(v & pa & b & rq & k' & err & r & Ht & _)]];
    rewrite Ht in Hfail, Hc; membership; reflexivity.
Qed.

(** C10. The id is copied as it is into the path. ChargeCustomer asks for
    POST at [customers/], the ID of the customer, [/charges]; GetCustomer,
    UpdateCustomer and DeleteCustomer ask for their verb at [customers/]
    followed by the id. With an empty ID the first path is
    [customers//charges] and with an empty id the others are [customers/]. *)
Theorem id_is_copied_into_path (l : positive) :
  (forall (c : Customer) (data : Body) (k : Dst) (dst : cell k) (s : State),
     Customer_Merchant c = Some l ->
     exists (r : Request + Err) (rest : list Call),
       calls (ChargeCustomer client merchants (Some c) data k dst s) =
       CallNewRequest "POST" ("customers/" +:+ Customer_ID c +:+ "/charges")
         data r :: rest)
  /\ (forall (id : string) (s : State),
       exists (r : Request + Err) (rest : list Call),
         calls (GetCustomer client merchants (Some l) id s) =
         CallNewRequest "GET" ("customers/" +:+ id) BodyNil r :: rest)
  /\ (forall (id : string) (data : option Customer) (s : State),
       exists (r : Request + Err) (rest : list Call),
         calls (UpdateCustomer client merchants (Some l) id data s) =
         CallNewRequest "PUT" ("customers/" +:+ id) (BodyCustomer data) r
           :: rest)
  /\ (forall (id : string) (s : State),
       exists (r : Request + Err) (rest : list Call),
         calls (DeleteCustomer client merchants (Some l) id s) =
         CallNewRequest "DELETE" ("customers/" +:+ id) BodyNil r :: rest)
  /\ (forall (c : Customer) (data : Body) (k : Dst) (dst : cell k) (s : State),
       Customer_Merchant c = Some l ->
       Customer_ID c = "" ->
       exists (r : Request + Err) (rest : list Call),
         calls (ChargeCustomer client merchants (Some c) data k dst s) =
         CallNewRequest "POST" "customers//charges" data r :: rest)
  /\ (forall (data : option Customer) (s : State),
       exists (r1 r2 r3 : Request + Err) (rest1 rest2 rest3 : list Call),
         calls (GetCustomer client merchants (Some l) "" s) =
           CallNewRequest "GET" "customers/" BodyNil r1 :: rest1
         /\ calls (UpdateCustomer client merchants (Some l) "" data s) =
           CallNewRequest "PUT" "customers/" (BodyCustomer data) r2 :: rest2
         /\ calls (DeleteCustomer client merchants (Some l) "" s) =
           CallNewRequest "DELETE" "customers/" BodyNil r3 :: rest3).
Proof.
  assert (Hcharge : forall c data k (dst : cell k) s,
    Customer_Merchant c = Some l ->
    exists r rest,
      calls (ChargeCustomer client merchants (Some c) data k dst s) =
      CallNewRequest "POST" ("customers/" +:+ Customer_ID c +:+ "/charges")
        data r :: rest).
  { intros c data k dst s Hm.
    unfold ChargeCustomer, deref, mbind, mret, Run_bind, Run_ret, calls.
    simpl. rewrite Hm, ?Sprintf_charges, performCustomerOperation_run. simpl.
    destruct (newRequest _ _ _ _ _) as [[req|e] s1]; simpl; [|eauto].
    destruct (perform _ _ _ _ _) as [[d err] s2]; simpl; eauto. }
  assert (Hget : forall id s, exists r rest,
    calls (GetCustomer client merchants (Some l) id s) =
    CallNewRequest "GET" ("customers/" +:+ id) BodyNil r :: rest).
  { intros id s. unfold GetCustomer, mbind, Run_bind, calls.
    rewrite performCustomerOperation_run. simpl.
    destruct (newRequest _ _ _ _ _) as [[req|e] s1]; simpl; [|eauto].
    destruct (perform _ _ _ _ _) as [[c [e|]] s2]; simpl; eauto. }
  assert (Hput : forall id data s, exists r rest,
    calls (UpdateCustomer client merchants (Some l) id data s) =
    CallNewRequest "PUT" ("customers/" +:+ id) (BodyCustomer data) r :: rest).
  { intros id data s. unfold UpdateCustomer, mbind, Run_bind, calls.
    rewrite performCustomerOperation_run. simpl.
    destruct (newRequest _ _ _ _ _) as [[req|e] s1]; simpl; [|eauto].
    destruct (perform _ _ _ _ _) as [[c [e|]] s2]; simpl; eauto. }
  assert (Hdelete : forall id s, exists r rest,
    calls (DeleteCustomer client merchants (Some l) id s) =
    CallNewRequest "DELETE" ("customers/" +:+ id) BodyNil r :: rest).
  { intros id s. unfold DeleteCustomer, mbind, Run_bind, calls.
    rewrite performCustomerOperation_run. simpl.
    destruct (newRequest _ _ _ _ _) as [[req|e] s1]; simpl; [|eauto].
    destruct (perform _ _ _ _ _) as [[c err] s2]; simpl; eauto. }
  repeat split; try done.
  - intros c data k dst s Hm Hid.
    destruct (Hcharge c data k dst s Hm) as (r & rest & Ht).
    rewrite Hid in Ht. eauto.
  - intros data s.
    destruct (Hget "" s) as (r1 & rest1 & H1).
    destruct (Hput "" data s) as (r2 & rest2 & H2).
    destruct (Hdelete "" s) as (r3 & rest3 & H3).
    exists r1, r2, r3, rest1, rest2, rest3. by repeat split.
Qed.

(** ** Further properties of the operations *)

Lemma ChargeCustomer_with_merchant (c : Customer) (l : positive) (data : Body)
  (k : Dst) (dst : cell k) (s : State) :
  Customer_Merchant c = Some l ->
  ChargeCustomer client merchants (Some c) data k dst s =
  performCustomerOperation client merchants (Some l) "POST"
    (Customer_ID c +:+ "/charges") data k dst s.
Proof.
  intros Hm. unfold ChargeCustomer, deref.
  change ((mret c ≫= fun cv => performCustomerOperation client merchants
             (Customer_Merchant cv) "POST"
             (Go.Sprintf "%s/charges" [Customer_ID cv]) data k dst) s)
    with (let '(o, s2, t2) :=
            performCustomerOperation client merchants (Customer_Merchant c)
              "POST" (Go.Sprintf "%s/charges" [Customer_ID c]) data k dst s
          in (o, s2, [] ++ t2)).
  rewrite Hm, Sprintf_charges.
  by destruct (performCustomerOperation _ _ _ _ _ _ _ _ _) as [[o s2] t2].
Qed.

Lemma performCustomerOperation_returns (l : positive) (verb id : string)
  (data : Body) (k : Dst) (dst : cell k) (s : State) :
  exists r : cell k * option Err,
    outcome (performCustomerOperation client merchants (Some l) verb id data
               k dst s) = Returns r.
Proof.
  rewrite performCustomerOperation_run. simpl.
  destruct (newRequest _ _ _ _ _) as [[req|e] s1]; simpl; [|by eexists].
  destruct (perform _ _ _ _ _) as [[d err] s2]. by eexists.
Qed.

(** X1. UpdateCustomer builds one request, for PUT at [customers/] followed
    by the id with the caller's Customer as the body, and performs it once
    into a fresh zero Customer. The error of either call is returned with a
    nil result; otherwise the result is what was decoded, with its Merchant
    set to the receiver. The caller's data reaches the result through the
    collaborator only. *)
Theorem UpdateCustomer_puts_once (l : positive) (id : string)
  (data : option Customer) (s : State) :
  let cl := client (merchants l) in
  let path := "customers/" +:+ id in
  let body := BodyCustomer data in
  (exists (e : Err) (s1 : State),
     newRequest cl "PUT" path body s = (inr e, s1)
     /\ UpdateCustomer client merchants (Some l) id data s =
        (Returns (None, Some e), s1, [CallNewRequest "PUT" path body (inr e)]))
  \/ (exists (req : Request) (s1 s2 : State) (decoded : Customer) (e : Err),
        newRequest cl "PUT" path body s = (inl req, s1)
        /\ perform cl DstCustomer req zeroCustomer s1 = ((decoded, Some e), s2)
        /\ UpdateCustomer client merchants (Some l) id data s =
           (Returns (None, Some e), s2,
            [CallNewRequest "PUT" path body (inl req);
             CallPerform req DstCustomer (Some e)]))
  \/ (exists (req : Request) (s1 s2 : State) (decoded : Customer),
        newRequest cl "PUT" path body s = (inl req, s1)
        /\ perform cl DstCustomer req zeroCustomer s1 = ((decoded, None), s2)
        /\ UpdateCustomer client merchants (Some l) id data s =
           (Returns (Some (setMerchant (Some l) decoded), None), s2,
            [CallNewRequest "PUT" path body (inl req);
             CallPerform req DstCustomer None])).
Proof.
  intros cl path body. unfold UpdateCustomer, mbind, Run_bind.
  rewrite performCustomerOperation_run. fold cl path body. simpl.
  destruct (newRequest cl "PUT" path body s) as [[req|e] s1]; simpl.
  - right.
    destruct (perform cl DstCustomer req zeroCustomer s1)
      as [[decoded [e|]] s2] eqn:Hp; simpl.
    + left. exists req, s1, s2, decoded, e. by rewrite Hp.
    + right. exists req, s1, s2, decoded. by rewrite Hp.
  - left. eauto.
Qed.

(** X2. ChargeCustomer on a Customer whose Merchant is set builds one
    request, for POST at [customers/], the ID, [/charges], with the caller's
    data as the body, and performs it once into the caller's destination.
    When the request cannot be built the destination is left as it was; once
    the request is performed the destination holds what perform left in it,
    also when perform returned an error. *)
Theorem ChargeCustomer_charges_once (c : Customer) (l : positive) (data : Body)
  (k : Dst) (dst : cell k) (s : State) :
  Customer_Merchant c = Some l ->
  let cl := client (merchants l) in
  let path := "customers/" +:+ Customer_ID c +:+ "/charges" in
  (exists (e : Err) (s1 : State),
     newRequest cl "POST" path data s = (inr e, s1)
     /\ ChargeCustomer client merchants (Some c) data k dst s =
        (Returns (dst, Some e), s1, [CallNewRequest "POST" path data (inr e)]))
  \/ (exists (req : Request) (s1 s2 : State) (dst' : cell k)
         (err : option Err),
        newRequest cl "POST" path data s = (inl req, s1)
        /\ perform cl k req dst s1 = ((dst', err), s2)
        /\ ChargeCustomer client merchants (Some c) data k dst s =
           (Returns (dst', err), s2,
            [CallNewRequest "POST" path data (inl req);
             CallPerform req k err])).
Proof.
  intros Hm cl path.
  rewrite (ChargeCustomer_with_merchant c l data k dst s Hm).
  rewrite performCustomerOperation_run. fold cl path. simpl.
  destruct (newRequest cl "POST" path data s) as [[req|e] s1]; simpl.
  - right. destruct (perform cl k req dst s1) as [[dst' err] s2] eqn:Hp.
    exists req, s1, s2, dst', err. by rewrite Hp.
  - left. eauto.
Qed.

(** X3. An operation panics exactly when it has no Merchant to read the
    client from (a nil receiver, a nil Customer, or a Customer whose Merchant
    is nil): then it panics with a nil pointer dereference before any call
    and leaves the collaborator's state as it was. With a Merchant it always
    returns. *)
Theorem operation_panics_iff_no_merchant (op : Operation) (s : State) :
  (merchantOf op = None ->
     invoke client merchants op s = (Panics NilPointerDereference, s, []))
  /\ (forall l : positive, merchantOf op = Some l ->
        exists r : Result, outcome (invoke client merchants op s) = Returns r).
Proof.
  split.
  - destruct op as [m args|m|m id|m id data|m id|[c|] data k dst]; simpl;
      intros Hm; try (subst m; reflexivity); [|reflexivity].
    unfold ChargeCustomer, deref, mbind, mret, Run_bind, Run_ret. simpl.
    by rewrite Hm, performCustomerOperation_nil.
  - intros l Hm.
    destruct (invoke_cases op s)
      as [(p & Hp & Ht)|[(v & pa & b & e & r & _ & Ho & _)
                        |(v & pa & b & rq & k' & err & r & _ & Ho & _)]];
      [|by exists r|by exists r].
    exfalso.
    destruct op as [m args|m|m id|m id data|m id|[c|] data k dst];
      simpl in Hm; try subst m; try discriminate Hm.
    + revert Hp. unfold invoke, mbind, Run_bind. rewrite AddCustomer_run. simpl.
      destruct (newRequest _ _ _ _ _) as [[req|e] s1]; simpl; [|done].
      by destruct (perform _ _ _ _ _) as [[d [e|]] s2].
    + revert Hp. unfold invoke, mbind, Run_bind. rewrite GetCustomers_run. simpl.
      destruct (newRequest _ _ _ _ _) as [[req|e] s1]; simpl; [|done].
      by destruct (perform _ _ _ _ _) as [[d [e|]] s2].
    + revert Hp. unfold invoke, GetCustomer, mbind, Run_bind.
      rewrite performCustomerOperation_run. simpl.
      destruct (newRequest _ _ _ _ _) as [[req|e] s1]; simpl; [|done].
      by destruct (perform _ _ _ _ _) as [[d [e|]] s2].
    + revert Hp. unfold invoke, UpdateCustomer, mbind, Run_bind.
      rewrite performCustomerOperation_run. simpl.
      destruct (newRequest _ _ _ _ _) as [[req|e] s1]; simpl; [|done].
      by destruct (perform _ _ _ _ _) as [[d [e|]] s2].
    + revert Hp. unfold invoke, DeleteCustomer, mbind, Run_bind.
      rewrite performCustomerOperation_run. simpl.
      destruct (newRequest _ _ _ _ _) as [[req|e] s1]; simpl; [|done].
      by destruct (perform _ _ _ _ _) as [[d [e|]] s2].
    + revert Hp. unfold invoke, mbind, Run_bind.
      rewrite (ChargeCustomer_with_merchant c l data k dst s Hm).
      rewrite performCustomerOperation_run. simpl.
      destruct (newRequest _ _ _ _ _) as [[req|e] s1]; simpl; [|done].
      by destruct (perform _ _ _ _ _) as [[d [e|]] s2].
Qed.

(** X4. No operation retries or calls the collaborator out of order: its
    calls are none at all, or one newRequest that failed, or one newRequest
    that succeeded followed by one perform of the very request it returned. *)
Theorem operation_is_one_round_trip (op : Operation) (s : State) :
  let t := calls (invoke client merchants op s) in
  t = []
  \/ (exists verb path body (e : Err),
        t = [CallNewRequest verb path body (inr e)])
  \/ (exists verb path body (req : Request) k (err : option Err),
        t = [CallNewRequest verb path body (inl req); CallPerform req k err]).
Proof.
  intros t. subst t.
  destruct (invoke_cases op s)
    as [(p & _ & Ht)|[(v & pa & b & e & r & Ht & _)
                     |(v & pa & b & rq & k' & err & r & Ht & _)]];
    rewrite Ht; eauto 10.
Qed.

(** X5. AddCustomer, GetCustomer and UpdateCustomer return either a Customer
    and a nil error, or a nil Customer and an error: never both, never
    neither. *)
Theorem customer_or_error (op : Operation) (s : State)
  (customer : option Customer) (err : option Err) :
  outcome (invoke client merchants op s) = Returns (OneCustomer customer err) ->
  (is_Some customer /\ err = None) \/ (customer = None /\ is_Some err).
Proof.
  destruct op as [[l|] args|[l|]|[l|] id|[l|] id data|[l|] id|[c|] data k dst];
    try discriminate.
  - unfold invoke, mbind, Run_bind. rewrite AddCustomer_run. simpl.
    destruct (newRequest _ _ _ _ _) as [[req|e] s1]; simpl.
    + destruct (perform _ _ _ _ _) as [[d [e|]] s2]; simpl;
        intros [= <- <-]; eauto.
    + intros [= <- <-]; eauto.
  - unfold invoke, mbind, Run_bind. rewrite GetCustomers_run. simpl.
    destruct (newRequest _ _ _ _ _) as [[req|e] s1]; simpl; [|discriminate].
    by destruct (perform _ _ _ _ _) as [[d [e|]] s2].
  - unfold invoke, GetCustomer, mbind, Run_bind.
    rewrite performCustomerOperation_run. simpl.
    destruct (newRequest _ _ _ _ _) as [[req|e] s1]; simpl.
    + destruct (perform _ _ _ _ _) as [[d [e|]] s2]; simpl;
        intros [= <- <-]; eauto.
    + intros [= <- <-]; eauto.
  - unfold invoke, UpdateCustomer, mbind, Run_bind.
    rewrite performCustomerOperation_run. simpl.
    destruct (newRequest _ _ _ _ _) as [[req|e] s1]; simpl.
    + destruct (perform _ _ _ _ _) as [[d [e|]] s2]; simpl;
        intros [= <- <-]; eauto.
    + intros [= <- <-]; eauto.
  - unfold invoke, DeleteCustomer, mbind, Run_bind.
    rewrite performCustomerOperation_run. simpl.
    destruct (newRequest _ _ _ _ _) as [[req|e] s1]; simpl; [|discriminate].
    by destruct (perform _ _ _ _ _) as [[d [e|]] s2].
  - unfold invoke, mbind, Run_bind.
    destruct (ChargeCustomer _ _ _ _ _ _ _) as [[[[d e]|p] s1] t]; discriminate.
Qed.

(** Every Customer an operation returns was given the Merchant of the call. *)
Lemma returned_customer_has_merchant (op : Operation) (s : State)
  (customer : Customer) :
  (exists err : option Err,
     outcome (invoke client merchants op s)
     = Returns (OneCustomer (Some customer) err))
  \/ (exists (customers : list Customer) (err : option Err),
        outcome (invoke client merchants op s)
        = Returns (ManyCustomers (Some customers) err)
        /\ customer ∈ customers) ->
  exists (l : positive) (decoded : Customer),
    merchantOf op = Some l /\ customer = setMerchant (Some l) decoded.
Proof.
  destruct op as [[l|] args|[l|]|[l|] id|[l|] id data|[l|] id|[c|] data k dst];
    try (intros [(err & H)|(cs & err & H & _)]; discriminate H).
  - unfold invoke, mbind, Run_bind. rewrite AddCustomer_run. simpl.
    destruct (newRequest _ _ _ _ _) as [[req|e] s1]; simpl.
    + destruct (perform _ _ _ _ _) as [[d [e|]] s2]; simpl;
        intros [(err & H)|(cs & err & H & _)]; try discriminate H.
      injection H as <- <-. by exists l, d.
    + intros [(err & H)|(cs & err & H & _)]; discriminate H.
  - unfold invoke, mbind, Run_bind. rewrite GetCustomers_run. simpl.
    destruct (newRequest _ _ _ _ _) as [[req|e] s1]; simpl.
    + destruct (perform _ _ _ _ _) as [[d [e|]] s2]; simpl;
        intros [(err & H)|(cs & err & H & Hin)]; try discriminate H.
      injection H as Hcs <-.
      assert (Hel : cs = setMerchant (Some l) <$> elems d).
      { rewrite <- setMerchants_elems. by rewrite Hcs. }
      rewrite Hel in Hin. apply list_elem_of_fmap in Hin as (y & -> & _).
      by exists l, y.
    + intros [(err & H)|(cs & err & H & _)]; discriminate H.
  - unfold invoke, GetCustomer, mbind, Run_bind.
    rewrite performCustomerOperation_run. simpl.
    destruct (newRequest _ _ _ _ _) as [[req|e] s1]; simpl.
    + destruct (perform _ _ _ _ _) as [[d [e|]] s2]; simpl;
        intros [(err & H)|(cs & err & H & _)]; try discriminate H.
      injection H as <- <-. by exists l, d.
    + intros [(err & H)|(cs & err & H & _)]; discriminate H.
  - unfold invoke, UpdateCustomer, mbind, Run_bind.
    rewrite performCustomerOperation_run. simpl.
    destruct (newRequest _ _ _ _ _) as [[req|e] s1]; simpl.
    + destruct (perform _ _ _ _ _) as [[d [e|]] s2]; simpl;
        intros [(err & H)|(cs & err & H & _)]; try discriminate H.
      injection H as <- <-. by exists l, d.
    + intros [(err & H)|(cs & err & H & _)]; discriminate H.
  - unfold invoke, DeleteCustomer, mbind, Run_bind.
    rewrite performCustomerOperation_run. simpl.
    destruct (newRequest _ _ _ _ _) as [[req|e] s1]; simpl.
    + destruct (perform _ _ _ _ _) as [[d [e|]] s2]; simpl;
        intros [(err & H)|(cs & err & H & _)]; discriminate H.
    + intros [(err & H)|(cs & err & H & _)]; discriminate H.
  - unfold invoke, mbind, Run_bind.
    destruct (ChargeCustomer _ _ _ _ _ _ _) as [[[[d e]|p] s1] t];
      intros [(err & H)|(cs & err & H & _)]; discriminate H.
Qed.

(** X6. A Customer returned by AddCustomer, GetCustomer or UpdateCustomer,
    and every Customer of the slice GetCustomers returns, carries the
    Merchant it was obtained through. Charging it, in any later state, never
    panics: the charge is the POST at [customers/], its ID, [/charges], sent
    through the client of that same Merchant. *)
Theorem returned_customer_can_be_charged (op : Operation) (s : State)
  (customer : Customer) :
  (exists err : option Err,
     outcome (invoke client merchants op s)
     = Returns (OneCustomer (Some customer) err))
  \/ (exists (customers : list Customer) (err : option Err),
        outcome (invoke client merchants op s)
        = Returns (ManyCustomers (Some customers) err)
        /\ customer ∈ customers) ->
  exists l : positive,
    merchantOf op = Some l
    /\ Customer_Merchant customer = Some l
    /\ forall (data : Body) (k : Dst) (dst : cell k) (s' : State),
         ChargeCustomer client merchants (Some customer) data k dst s'
         = performCustomerOperation client merchants (Some l) "POST"
             (Customer_ID customer +:+ "/charges") data k dst s'
         /\ exists r : cell k * option Err,
              outcome (ChargeCustomer client merchants (Some customer) data k
                         dst s') = Returns r.
Proof.
  intros H.
  destruct (returned_customer_has_merchant op s customer H)
    as (l & decoded & Hm & ->).
  exists l. split; [exact Hm|]. split; [reflexivity|].
  intros data k dst s'.
  rewrite (ChargeCustomer_with_merchant (setMerchant (Some l) decoded) l data
             k dst s' eq_refl).
  split; [reflexivity|]. apply performCustomerOperation_returns.
Qed.

End Properties.

(** ** Further properties of the payloads and of the paths *)

Section PayloadFacts.
Import Go Json.

Lemma Marshal_float (f : float64) :
  Marshal (VFloat64 f) =
  if PrimFloat.is_nan f || PrimFloat.is_infinity f then None
  else Some (JNumber f).
Proof. reflexivity. Qed.

Ltac fields :=
  rewrite Marshal_struct;
  repeat first
    [ erewrite marshalFields_always by (vm_compute; reflexivity)
    | erewrite marshalFields_omitempty by (vm_compute; reflexivity) ];
  change (marshalFields []) with (Some (@nil (string * json))).

(** X7. The payload of any CustomerArgs, member by member. [name], [email],
    [requires_acount] and [address] are always written, whatever they hold
    (an empty name, a false flag, an address of empty lines); [external_id],
    [last_name] and [phone_number] are written exactly when they are not
    empty. The encoding never fails. *)
Theorem CustomerArgs_payload (a : CustomerArgs) :
  Marshal (Fields.ofCustomerArgs a) =
  Some (JObject (
    (if String.eqb (CustomerArgs_ExternalID a) "" then []
     else [("external_id", JString (CustomerArgs_ExternalID a))]) ++
    [("name", JString (CustomerArgs_Name a))] ++
    (if String.eqb (CustomerArgs_LastName a) "" then []
     else [("last_name", JString (CustomerArgs_LastName a))]) ++
    [("email", JString (CustomerArgs_Email a));
     ("requires_acount", JBool (CustomerArgs_RequiresAccount a))] ++
    (if String.eqb (CustomerArgs_PhoneNumber a) "" then []
     else [("phone_number", JString (CustomerArgs_PhoneNumber a))]) ++
    [("address", JObject [
       ("line1", JString (Address_Line1 (CustomerArgs_Address a)));
       ("line2", JString (Address_Line2 (CustomerArgs_Address a)));
       ("line3", JString (Address_Line3 (CustomerArgs_Address a)));
       ("postal_code", JString (Address_PostalCode (CustomerArgs_Address a)));
       ("state", JString (Address_State (CustomerArgs_Address a)));
       ("city", JString (Address_City (CustomerArgs_Address a)));
       ("country_code",
          JString (Address_CountryCode (CustomerArgs_Address a))) ])])).
Proof.
  unfold Fields.ofCustomerArgs. fields.
  change (isEmptyValue (Fields.ofAddress (CustomerArgs_Address a))) with false.
  change (isEmptyValue (VString (CustomerArgs_ExternalID a)))
    with (String.eqb (CustomerArgs_ExternalID a) "").
  change (isEmptyValue (VString (CustomerArgs_LastName a)))
    with (String.eqb (CustomerArgs_LastName a) "").
  change (isEmptyValue (VString (CustomerArgs_PhoneNumber a)))
    with (String.eqb (CustomerArgs_PhoneNumber a) "").
  rewrite !Marshal_string, Marshal_Address.
  change (Marshal (VBool (CustomerArgs_RequiresAccount a)))
    with (Some (JBool (CustomerArgs_RequiresAccount a))).
  destruct (String.eqb (CustomerArgs_ExternalID a) "");
    destruct (String.eqb (CustomerArgs_LastName a) "");
    destruct (String.eqb (CustomerArgs_PhoneNumber a) ""); reflexivity.
Qed.

(** X8. Whenever a Customer is encoded, its ten members from
    [creation_date] to [store] are all written, whatever they hold, and [id]
    is written exactly when the ID is not empty. The encoding of a Customer
    with only some fields filled in, as a caller of UpdateCustomer may build
    one, therefore carries every other field at its zero value. *)
Theorem Customer_payload_keys (pointee : positive -> Value) (c : Customer)
  (j : json) :
  Marshal (Fields.ofCustomer pointee c) = Some j ->
  keys j =
    (if String.eqb (Customer_ID c) "" then [] else ["id"]) ++
    ["creation_date"; "name"; "last_name"; "email"; "phone_number"; "status";
     "balance"; "clabe"; "address"; "store"; "Merchant"]
  /\ member "name" j = Some (JString (Customer_Name c))
  /\ member "last_name" j = Some (JString (Customer_LastName c))
  /\ member "email" j = Some (JString (Customer_Email c))
  /\ member "phone_number" j = Some (JString (Customer_PhoneNumber c))
  /\ member "status" j = Some (JString (Customer_Status c))
  /\ member "clabe" j = Some (JString (Customer_CLABE c))
  /\ member "balance" j = Some (JNumber (Customer_Balance c)).
Proof.
  intros Hj.
  destruct (Marshal_Customer pointee c j Hj)
    as (jt & jb & mj & _ & Hb & _ & ->).
  rewrite Marshal_float in Hb.
  destruct (PrimFloat.is_nan (Customer_Balance c)
            || PrimFloat.is_infinity (Customer_Balance c));
    [discriminate Hb|]. injection Hb as <-.
  by destruct (String.eqb (Customer_ID c) "").
Qed.

(** X9. The payload of any ChargeArgs has its seven members, whatever they
    hold: an empty order id or device session id is written as an empty
    string, not left out. The encoding fails exactly when the amount is not a
    finite number. *)
Theorem ChargeArgs_payload (a : ChargeArgs) :
  Marshal (Fields.ofChargeArgs a) =
  if PrimFloat.is_nan (ChargeArgs_Amount a)
     || PrimFloat.is_infinity (ChargeArgs_Amount a)
  then None
  else Some (JObject [
    ("source_id", JString (ChargeArgs_Source_id a));
    ("method", JString (ChargeArgs_Method a));
    ("amount", JNumber (ChargeArgs_Amount a));
    ("currency", JString (ChargeArgs_Currency a));
    ("description", JString (ChargeArgs_Description a));
    ("order_id", JString (ChargeArgs_Order_id a));
    ("device_session_id", JString (ChargeArgs_Device_session_id a)) ]).
Proof.
  unfold Fields.ofChargeArgs. fields.
  rewrite !Marshal_string, Marshal_float.
  by destruct (PrimFloat.is_nan (ChargeArgs_Amount a)
               || PrimFloat.is_infinity (ChargeArgs_Amount a)).
Qed.





End PayloadFacts.

(** ** The claims on the scripted collaborator *)

(** C1, as stated, fails: charging a Customer whose Merchant is nil returns
    no error value at all. *)
Lemma ChargeCustomer_nil_merchant_returns_no_error :
  Customer_Merchant Mock.orphan = None
  /\ ~ exists (e : Mock.Err) (dst : Mock.Dyn),
        outcome (ChargeCustomer Mock.client Mock.merchants (Some Mock.orphan)
                   (BodyDyn "charge") DstDyn "" 0%nat)
        = Returns (dst, Some e).
Proof.
  split; [reflexivity|]. intros (e & dst & H). discriminate H.
Qed.

Lemma ChargeCustomer_nil_merchant_panics_witness :
  Customer_Merchant Mock.orphan = None
  /\ ChargeCustomer Mock.client Mock.merchants (Some Mock.orphan)
       (BodyDyn "charge") DstDyn "" 0%nat
     = (Panics NilPointerDereference, 0%nat, []).
Proof.
  split; [reflexivity|].
  apply (ChargeCustomer_nil_merchant_panics Mock.client Mock.merchants).
  reflexivity.
Defined.

(** C2, as stated, fails: the body UpdateCustomer sends for a Customer is
    encoded with a member named [Merchant], [null] for a nil reference and an
    object for a Merchant. *)
Lemma UpdateCustomer_body_carries_Merchant :
  calls (UpdateCustomer Mock.client Mock.merchants Mock.ctx "cust_1"
           (Some Mock.orphan) 0%nat)
  = [CallNewRequest "PUT" "customers/cust_1" (BodyCustomer (Some Mock.orphan))
       (inl ("PUT", "customers/cust_1"));
     CallPerform ("PUT", "customers/cust_1") DstCustomer None]
  /\ (Json.keys <$> Json.Marshal (Fields.ofCustomer Mock.pointee Mock.orphan))
     = Some ["id"; "creation_date"; "name"; "last_name"; "email";
             "phone_number"; "status"; "balance"; "clabe"; "address"; "store";
             "Merchant"]
  /\ (Json.member "Merchant"
        <$> Json.Marshal (Fields.ofCustomer Mock.pointee Mock.orphan))
     = Some (Some Json.JNull)
  /\ (Json.member "Merchant"
        <$> Json.Marshal
              (Fields.ofCustomer Mock.pointee (setMerchant Mock.ctx Mock.orphan)))
     = Some (Some (Json.JObject [])).
Proof. repeat split; vm_compute; reflexivity. Qed.

Lemma Customer_payload_has_Merchant_witness :
  Json.Marshal (Fields.ofCustomer Mock.pointee Mock.orphan)
  = Some (Json.JObject [
      ("id", Json.JString "cust_1");
      ("creation_date", Json.JTime Go.zeroTime);
      ("name", Json.JString "Ana");
      ("last_name", Json.JString "");
      ("email", Json.JString "ana@example.com");
      ("phone_number", Json.JString "");
      ("status", Json.JString "");
      ("balance", Json.JNumber PrimFloat.zero);
      ("clabe", Json.JString "");
      ("address", Json.JObject [
         ("line1", Json.JString ""); ("line2", Json.JString "");
         ("line3", Json.JString ""); ("postal_code", Json.JString "");
         ("state", Json.JString ""); ("city", Json.JString "");
         ("country_code", Json.JString "") ]);
      ("store", Json.JObject [
         ("reference", Json.JString ""); ("barcode_url", Json.JString "");
         ("paybin_reference", Json.JString "");
         ("barcode_paybin_url", Json.JString "") ]);
      ("Merchant", Json.JNull) ])
  /\ exists mj : Json.json,
       Json.member "Merchant" (Json.JObject [
         ("id", Json.JString "cust_1");
         ("creation_date", Json.JTime Go.zeroTime);
         ("name", Json.JString "Ana");
         ("last_name", Json.JString "");
         ("email", Json.JString "ana@example.com");
         ("phone_number", Json.JString "");
         ("status", Json.JString "");
         ("balance", Json.JNumber PrimFloat.zero);
         ("clabe", Json.JString "");
         ("address", Json.JObject [
            ("line1", Json.JString ""); ("line2", Json.JString "");
            ("line3", Json.JString ""); ("postal_code", Json.JString "");
            ("state", Json.JString ""); ("city", Json.JString "");
            ("country_code", Json.JString "") ]);
         ("store", Json.JObject [
            ("reference", Json.JString ""); ("barcode_url", Json.JString "");
            ("paybin_reference", Json.JString "");
            ("barcode_paybin_url", Json.JString "") ]);
         ("Merchant", Json.JNull) ]) = Some mj
       /\ mj = Json.JNull.
Proof.
  split; [reflexivity|].
  destruct (proj1 (Customer_payload_has_Merchant Mock.client Mock.merchants)
              Mock.pointee Mock.orphan _ eq_refl) as (mj & Hm & _ & Hnull).
  exists mj. split; [exact Hm | exact Hnull].
Defined.

(** C3 on the code. Arguments with only the required fields are encoded
    with four members: [name], [email], [requires_acount] and [address]. The
    three optional strings are left out; the address is written, as an object
    of seven empty strings, although its tag asks for [omitempty]. *)
Theorem CustomerArgs_required_only_payload (name email : string) (account : bool) :
  Json.Marshal
    (Fields.ofCustomerArgs (mkCustomerArgs "" name "" email account "" zeroAddress))
  = Some (Json.JObject [
      ("name", Json.JString name);
      ("email", Json.JString email);
      ("requires_acount", Json.JBool account);
      ("address", Json.JObject [
         ("line1", Json.JString ""); ("line2", Json.JString "");
         ("line3", Json.JString ""); ("postal_code", Json.JString "");
         ("state", Json.JString ""); ("city", Json.JString "");
         ("country_code", Json.JString "") ]) ]).
Proof. reflexivity. Qed.

Lemma AddCustomer_posts_once_witness :
  newRequest (Mock.client (Mock.merchants 1%positive)) "POST" "customers"
    (BodyCustomerArgs (Some Mock.requiredOnly)) 0%nat
  = (inl ("POST", "customers"), 0%nat)
  /\ perform (Mock.client (Mock.merchants 1%positive)) DstCustomer
       ("POST", "customers") zeroCustomer 0%nat
     = ((zeroCustomer, None), 1%nat)
  /\ exists result : Customer,
       AddCustomer Mock.client Mock.merchants (Some 1%positive)
         (Some Mock.requiredOnly) 0%nat
       = (Returns (Some result, None), 1%nat,
          [CallNewRequest "POST" "customers"
             (BodyCustomerArgs (Some Mock.requiredOnly))
             (inl ("POST", "customers"));
           CallPerform ("POST", "customers") DstCustomer None])
       /\ Customer_Merchant result = Some 1%positive
       /\ sameData result zeroCustomer.
Proof.
  split; [reflexivity|]. split; [reflexivity|].
  apply (AddCustomer_posts_once Mock.client Mock.merchants 1%positive
           (Some Mock.requiredOnly) 0%nat 0%nat 1%nat);
    reflexivity.
Defined.

Lemma GetCustomers_sets_every_Merchant_witness :
  newRequest (Mock.client (Mock.merchants 1%positive)) "GET" "customers"
    BodyNil 0%nat
  = (inl ("GET", "customers"), 0%nat)
  /\ perform (Mock.client (Mock.merchants 1%positive)) DstCustomers
       ("GET", "customers") None 0%nat
     = ((Some Mock.listed, None), 1%nat)
  /\ exists result : slice Customer,
       GetCustomers Mock.client Mock.merchants (Some 1%positive) 0%nat
       = (Returns (result, None), 1%nat,
          [CallNewRequest "GET" "customers" BodyNil (inl ("GET", "customers"));
           CallPerform ("GET", "customers") DstCustomers None])
       /\ length (elems result) = length (elems (Some Mock.listed))
       /\ forall (i : nat) (c : Customer),
            elems (Some Mock.listed) !! i = Some c ->
            exists r : Customer,
              elems result !! i = Some r
              /\ Customer_Merchant r = Some 1%positive
              /\ sameData r c.
Proof.
  split; [reflexivity|]. split; [reflexivity|].
  apply (GetCustomers_sets_every_Merchant Mock.client Mock.merchants 1%positive
           0%nat 0%nat 1%nat);
    reflexivity.
Defined.

Lemma GetCustomer_gets_once_witness :
  newRequest (Mock.client (Mock.merchants 1%positive)) "GET" "customers/cust_1"
    BodyNil 0%nat
  = (inl ("GET", "customers/cust_1"), 0%nat)
  /\ Decode.Unmarshal Decode.ana zeroCustomer
     = Some (mkCustomer "cust_1" Go.zeroTime "Ana" "" "" "" "" PrimFloat.zero ""
               zeroAddress zeroStoreReference None)
  /\ perform (Mock.client (Mock.merchants 1%positive)) DstCustomer
       ("GET", "customers/cust_1") zeroCustomer 0%nat
     = ((mkCustomer "cust_1" Go.zeroTime "Ana" "" "" "" "" PrimFloat.zero ""
           zeroAddress zeroStoreReference None, None), 1%nat)
  /\ GetCustomer Mock.client Mock.merchants (Some 1%positive) "cust_1" 0%nat
     = (Returns
          (Some (mkCustomer "cust_1" Go.zeroTime "Ana" "" "" "" ""
                   PrimFloat.zero "" zeroAddress zeroStoreReference
                   (Some 1%positive)),
           None),
        1%nat,
        [CallNewRequest "GET" "customers/cust_1" BodyNil
           (inl ("GET", "customers/cust_1"));
         CallPerform ("GET", "customers/cust_1") DstCustomer None]).
Proof.
  split; [reflexivity|]. split; [reflexivity|]. split; [reflexivity|].
  apply (proj2 (GetCustomer_gets_once Mock.client Mock.merchants 1%positive)
           0%nat 0%nat 1%nat ("GET", "customers/cust_1")
           (mkCustomer "cust_1" Go.zeroTime "Ana" "" "" "" "" PrimFloat.zero ""
              zeroAddress zeroStoreReference None));
    reflexivity.
Defined.

Lemma collaborator_error_is_returned_witness :
  CallPerform ("DELETE", "customers/unreachable") DstNil
    (Some "connection refused")
    ∈ calls (invoke Mock.client Mock.merchants
               (OpDeleteCustomer Mock.ctx "unreachable") 0%nat)
  /\ exists r : Result,
       outcome (invoke Mock.client Mock.merchants
                  (OpDeleteCustomer Mock.ctx "unreachable") 0%nat) = Returns r
       /\ resultError r = Some "connection refused"
       /\ resultIsNil r.
Proof.
  assert (Hin : CallPerform ("DELETE", "customers/unreachable") DstNil
                  (Some "connection refused")
                ∈ calls (invoke Mock.client Mock.merchants
                           (OpDeleteCustomer Mock.ctx "unreachable") 0%nat)).
  { apply list_elem_of_further, list_elem_of_here. }
  split; [exact Hin|].
  apply (collaborator_error_is_returned Mock.client Mock.merchants).
  right. exists ("DELETE", "customers/unreachable"), DstNil. exact Hin.
Defined.

Lemma failed_newRequest_performs_nothing_witness :
  CallNewRequest "GET" "customers/unbuildable" BodyNil
    (inr "cannot build the request")
    ∈ calls (invoke Mock.client Mock.merchants
               (OpGetCustomer Mock.ctx "unbuildable") 0%nat)
  /\ forall c : Call,
       c ∈ calls (invoke Mock.client Mock.merchants
                    (OpGetCustomer Mock.ctx "unbuildable") 0%nat) ->
       isPerform c = false.
Proof.
  assert (Hin : CallNewRequest "GET" "customers/unbuildable" BodyNil
                  (inr "cannot build the request")
                ∈ calls (invoke Mock.client Mock.merchants
                           (OpGetCustomer Mock.ctx "unbuildable") 0%nat)).
  { apply list_elem_of_here. }
  split; [exact Hin|].
  exact (failed_newRequest_performs_nothing Mock.client Mock.merchants
           (OpGetCustomer Mock.ctx "unbuildable") 0%nat
           "GET" "customers/unbuildable" BodyNil "cannot build the request" Hin).
Defined.

Lemma id_is_copied_into_path_witness :
  Customer_Merchant (setMerchant Mock.ctx zeroCustomer) = Some 1%positive
  /\ Customer_ID (setMerchant Mock.ctx zeroCustomer) = ""
  /\ exists (r : Mock.Request + Mock.Err) (rest : list Call),
       calls (ChargeCustomer Mock.client Mock.merchants
                (Some (setMerchant Mock.ctx zeroCustomer)) (BodyDyn "charge")
                DstDyn "" 0%nat)
       = CallNewRequest "POST" "customers//charges" (BodyDyn "charge") r :: rest.
Proof.
  split; [reflexivity|]. split; [reflexivity|].
  destruct (id_is_copied_into_path Mock.client Mock.merchants 1%positive)
    as (_ & _ & _ & _ & Hempty & _).
  apply Hempty; reflexivity.
Defined.

(** ** The further properties on the scripted collaborator *)

Lemma ChargeCustomer_charges_once_witness :
  Customer_Merchant (setMerchant Mock.ctx Mock.orphan) = Some 1%positive
  /\ let c := setMerchant Mock.ctx Mock.orphan in
     let cl := Mock.client (Mock.merchants 1%positive) in
     let path := "customers/" +:+ Customer_ID c +:+ "/charges" in
     let data := BodyDyn "charge" in
     (exists (e : Mock.Err) (s1 : Mock.State),
        newRequest cl "POST" path data 0%nat = (inr e, s1)
        /\ ChargeCustomer Mock.client Mock.merchants (Some c) data DstDyn ""
             0%nat
           = (Returns ("", Some e), s1,
              [CallNewRequest "POST" path data (inr e)]))
     \/ (exists (req : Mock.Request) (s1 s2 : Mock.State) (dst' : Mock.Dyn)
            (err : option Mock.Err),
           newRequest cl "POST" path data 0%nat = (inl req, s1)
           /\ perform cl DstDyn req "" s1 = ((dst', err), s2)
           /\ ChargeCustomer Mock.client Mock.merchants (Some c) data DstDyn ""
                0%nat
              = (Returns (dst', err), s2,
                 [CallNewRequest "POST" path data (inl req);
                  CallPerform req DstDyn err])).
Proof.
  split; [reflexivity|].
  apply (ChargeCustomer_charges_once Mock.client Mock.merchants
           (setMerchant Mock.ctx Mock.orphan) 1%positive (BodyDyn "charge")
           DstDyn "" 0%nat).
  reflexivity.
Defined.

Lemma operation_panics_iff_no_merchant_witness :
  (merchantOf (OpChargeCustomer (Some Mock.orphan) (BodyDyn "charge") DstDyn "")
   = None
   /\ invoke Mock.client Mock.merchants
        (OpChargeCustomer (Some Mock.orphan) (BodyDyn "charge") DstDyn "")
        0%nat
      = (Panics NilPointerDereference, 0%nat, []))
  /\ (merchantOf (@OpGetCustomer Mock.Dyn Mock.ctx "cust_1") = Some 1%positive
      /\ exists r : Result,
           outcome (invoke Mock.client Mock.merchants
                      (OpGetCustomer Mock.ctx "cust_1") 0%nat) = Returns r).
Proof.
  split.
  - split; [reflexivity|].
    apply (proj1 (operation_panics_iff_no_merchant Mock.client Mock.merchants
                    (OpChargeCustomer (Some Mock.orphan) (BodyDyn "charge")
                       DstDyn "") 0%nat)).
    reflexivity.
  - split; [reflexivity|].
    apply (proj2 (operation_panics_iff_no_merchant Mock.client Mock.merchants
                    (OpGetCustomer Mock.ctx "cust_1") 0%nat) 1%positive).
    reflexivity.
Defined.

Lemma customer_or_error_witness :
  outcome (invoke Mock.client Mock.merchants
             (OpUpdateCustomer Mock.ctx "unreachable" (Some Mock.orphan)) 0%nat)
  = Returns (OneCustomer None (Some "connection refused"))
  /\ ((is_Some (@None Customer) /\ Some "connection refused" = None)
      \/ (@None Customer = None /\ is_Some (Some "connection refused"))).
Proof.
  split; [reflexivity|].
  apply (customer_or_error Mock.client Mock.merchants
           (OpUpdateCustomer Mock.ctx "unreachable" (Some Mock.orphan)) 0%nat).
  reflexivity.
Defined.

Lemma returned_customer_can_be_charged_witness :
  let luz := mkCustomer "cust_2" Go.zeroTime "Luz" "" "" "" "" PrimFloat.one ""
               zeroAddress zeroStoreReference (Some 1%positive) in
  (exists (customers : list Customer) (err : option Mock.Err),
     outcome (invoke Mock.client Mock.merchants (OpGetCustomers Mock.ctx) 0%nat)
     = Returns (ManyCustomers (Some customers) err)
     /\ luz ∈ customers)
  /\ exists l : positive,
       merchantOf (@OpGetCustomers Mock.Dyn Mock.ctx) = Some l
       /\ Customer_Merchant luz = Some l
       /\ forall (data : Body) (k : Dst) (dst : @cell Mock.Dyn k)
            (s' : Mock.State),
            ChargeCustomer Mock.client Mock.merchants (Some luz) data k dst s'
            = performCustomerOperation Mock.client Mock.merchants (Some l)
                "POST" (Customer_ID luz +:+ "/charges") data k dst s'
            /\ exists r : @cell Mock.Dyn k * option Mock.Err,
                 outcome (ChargeCustomer Mock.client Mock.merchants (Some luz)
                            data k dst s') = Returns r.
Proof.
  intros luz.
  assert (Hreturned :
    exists (customers : list Customer) (err : option Mock.Err),
      outcome (invoke Mock.client Mock.merchants (OpGetCustomers Mock.ctx) 0%nat)
      = Returns (ManyCustomers (Some customers) err)
      /\ luz ∈ customers).
  { eexists _, _. split; [reflexivity|].
    apply list_elem_of_further, list_elem_of_here. }
  split; [exact Hreturned|].
  apply (returned_customer_can_be_charged Mock.client Mock.merchants
           (OpGetCustomers Mock.ctx) 0%nat luz).
  right. exact Hreturned.
Defined.

Lemma Customer_payload_keys_witness :
  exists j : Json.json,
    Json.Marshal (Fields.ofCustomer Mock.pointee Mock.orphan) = Some j
    /\ Json.keys j =
         ["id"; "creation_date"; "name"; "last_name"; "email"; "phone_number";
          "status"; "balance"; "clabe"; "address"; "store"; "Merchant"]
    /\ Json.member "name" j = Some (Json.JString "Ana")
    /\ Json.member "last_name" j = Some (Json.JString "")
    /\ Json.member "email" j = Some (Json.JString "ana@example.com")
    /\ Json.member "phone_number" j = Some (Json.JString "")
    /\ Json.member "status" j = Some (Json.JString "")
    /\ Json.member "clabe" j = Some (Json.JString "")
    /\ Json.member "balance" j = Some (Json.JNumber PrimFloat.zero).
Proof.
  eexists. split; [vm_compute; reflexivity|].
  apply (Customer_payload_keys Mock.pointee Mock.orphan). reflexivity.
Defined.


Example charge_payload_keys :
  Json.keys <$> Json.Marshal (Fields.ofChargeArgs Mock.charge)
  = Some ["source_id"; "method"; "amount"; "currency"; "description";
          "order_id"; "device_session_id"].
Proof. reflexivity. Qed.

Example charge_payload_not_a_number :
  Json.Marshal
    (Fields.ofChargeArgs
       (mkChargeArgs "card_1" "card" PrimFloat.nan "MXN" "" "" ""))
  = None.
Proof. reflexivity. Qed.
